(** * World Bank data server: a shallow embedding of [server.py]

    The module exposes three read-only resources over a CSV file loaded
    with polars and three tools that proxy two HTTP APIs.  Python values
    are embedded as the inductive type [pyval]; raising is embedded in the
    sum type [result]; the network is an explicit [World] threaded through
    every tool.  Logging calls only write to the process log and are left
    out. *)

From Stdlib Require Import List String Ascii ZArith Bool Lia.
From Stdlib Require Import Permutation Sorting Orders OrdersEx Mergesort.
From Stdlib Require Import PrimFloat DecimalString.
Import ListNotations.
Local Open Scope string_scope.
Set Warnings "-register-all".

(** ** Python values and exceptions *)

(** The values [response.json()] can produce, which are also the values
    the handlers build: [None], booleans, integers, floats, strings, lists
    and string-keyed dictionaries (in insertion order).  A [string] stands
    for a Python [str], one [ascii] per character. *)
Inductive pyval : Type :=
| VNone
| VBool (b : bool)
| VInt (z : Z)
| VFloat (f : float)
| VStr (s : string)
| VList (l : list pyval)
| VDict (d : list (string * pyval)).

Inductive exn_class : Type :=
| FileNotFoundError
| HTTPStatusError
| RequestError
| JSONDecodeError
| ComputeError
| IndexError
| KeyError
| TypeError
| AttributeError.

(** An exception instance: its class and [str(e)].  Every class above
    derives from [Exception]. *)
Record exn : Type := mkExn { exn_cls : exn_class; str_exn : string }.

Inductive result (A : Type) : Type :=
| Ok (a : A)
| Raise (e : exn).
Arguments Ok {A} a.
Arguments Raise {A} e.

Definition rbind {A B : Type} (r : result A) (k : A -> result B) : result B :=
  match r with
  | Ok a => k a
  | Raise e => Raise e
  end.

Declare Scope result_scope.
Delimit Scope result_scope with result.
Notation "x <- r ;; k" := (rbind r (fun x => k))
  (at level 61, r at next level, right associativity) : result_scope.

Definition is_HTTPStatusError (e : exn) : bool :=
  match exn_cls e with
  | HTTPStatusError => true
  | _ => false
  end.

(** [str(n)] for an [int]. *)
Definition str_int (z : Z) : string := NilZero.string_of_int (Z.to_int z).

(** [type(v).__name__] *)
Definition type_name (v : pyval) : string :=
  match v with
  | VNone => "NoneType"
  | VBool _ => "bool"
  | VInt _ => "int"
  | VFloat _ => "float"
  | VStr _ => "str"
  | VList _ => "list"
  | VDict _ => "dict"
  end.

(** Truth value testing: what [if v:] and [not v] look at. *)
Definition truthy (v : pyval) : bool :=
  match v with
  | VNone => false
  | VBool b => b
  | VInt z => negb (z =? 0)%Z
  | VFloat f => negb (PrimFloat.eqb f 0%float)
  | VStr s => negb (String.eqb s "")
  | VList l => match l with [] => false | _ :: _ => true end
  | VDict d => match d with [] => false | _ :: _ => true end
  end.

(** [len(v)] *)
Definition py_len (v : pyval) : result nat :=
  match v with
  | VStr s => Ok (String.length s)
  | VList l => Ok (List.length l)
  | VDict d => Ok (List.length d)
  | _ => Raise (mkExn TypeError
                  ("object of type '" ++ type_name v ++ "' has no len()"))
  end.

(** [v[i]] for a literal index [i >= 0].  A dictionary parsed from JSON
    has string keys only, so an integer subscript is a [KeyError]. *)
Definition py_index (v : pyval) (i : nat) : result pyval :=
  match v with
  | VList l =>
      match nth_error l i with
      | Some x => Ok x
      | None => Raise (mkExn IndexError "list index out of range")
      end
  | VStr s =>
      match String.get i s with
      | Some c => Ok (VStr (String c ""))
      | None => Raise (mkExn IndexError "string index out of range")
      end
  | VDict _ => Raise (mkExn KeyError (str_int (Z.of_nat i)))
  | _ => Raise (mkExn TypeError
                  ("'" ++ type_name v ++ "' object is not subscriptable"))
  end.

Fixpoint dict_lookup (k : string) (d : list (string * pyval)) : option pyval :=
  match d with
  | [] => None
  | (k', v) :: d' => if String.eqb k' k then Some v else dict_lookup k d'
  end.

(** [d[k] = v] on a dictionary: overwrite in place, or append. *)
Fixpoint dict_set (k : string) (v : pyval) (d : list (string * pyval))
  : list (string * pyval) :=
  match d with
  | [] => [(k, v)]
  | (k', v') :: d' =>
      if String.eqb k' k then (k', v) :: d' else (k', v') :: dict_set k v d'
  end.

Definition no_attribute (v : pyval) (attr : string) : exn :=
  mkExn AttributeError
    ("'" ++ type_name v ++ "' object has no attribute '" ++ attr ++ "'").

(** [v.get(k, default)] *)
Definition py_get (v : pyval) (k : string) (default : pyval) : result pyval :=
  match v with
  | VDict d =>
      match dict_lookup k d with
      | Some x => Ok x
      | None => Ok default
      end
  | _ => Raise (no_attribute v "get")
  end.

(** [list(v.values())] and [list(v.keys())] *)
Definition py_values (v : pyval) : result pyval :=
  match v with
  | VDict d => Ok (VList (map snd d))
  | _ => Raise (no_attribute v "values")
  end.

Definition py_keys (v : pyval) : result pyval :=
  match v with
  | VDict d => Ok (VList (map (fun kv => VStr (fst kv)) d))
  | _ => Raise (no_attribute v "keys")
  end.

(** The field of a returned object, when the object is a dictionary. *)
Definition field (k : string) (v : pyval) : option pyval :=
  match v with
  | VDict d => dict_lookup k d
  | _ => None
  end.

(** ** The data set and its serialisation *)

(** One row of [world_bank_indicators.csv].  The handlers name two of its
    columns, [countryiso3code] and [country], both string columns in which
    an empty CSV field reads as null; the remaining cells of the row are
    kept under their column names. *)
Record IndicatorRecord : Type := mkRecord {
  countryiso3code : option string;
  country : option string;
  others : list (string * pyval)
}.

(** A polars [DataFrame] with rows of type [R]: the column names with the
    printed form of their data types, and the rows in order. *)
Record DataFrame (R : Type) : Type := mkFrame {
  schema : list (string * string);
  rows : list R
}.
Arguments mkFrame {R} schema rows.
Arguments schema {R} d.
Arguments rows {R} d.

Definition height {R : Type} (df : DataFrame R) : nat := List.length (rows df).

(** The text a resource returns, kept as the call that produced it:
    [json.dumps(v)] (with its [indent] argument) or
    [DataFrame.write_json()]. *)
Inductive text (R : Type) : Type :=
| json_dumps (indent : option nat) (v : pyval)
| write_json (df : DataFrame R).
Arguments json_dumps {R} indent v.
Arguments write_json {R} df.

(** The rows a returned text carries: those of the serialised frame, and
    none for an error object. *)
Definition returned_rows {R : Type} (r : result (text R)) : list R :=
  match r with
  | Ok (write_json df) => rows df
  | _ => []
  end.

(** A (country code, country name) row of the projected frame. *)
Definition CountryRow : Type := (option string * option string)%type.

Definition CountryRow_eq_dec (p q : CountryRow) : {p = q} + {p <> q}.
Proof. repeat decide equality. Defined.

Fixpoint schema_lookup (c : string) (s : list (string * string)) : option string :=
  match s with
  | [] => None
  | (c', t) :: s' => if String.eqb c' c then Some t else schema_lookup c s'
  end.

(** [df.select(["countryiso3code", "country"])] *)
Definition select_countries (df : DataFrame IndicatorRecord) : DataFrame CountryRow :=
  mkFrame
    (flat_map (fun c => match schema_lookup c (schema df) with
                        | Some t => [(c, t)]
                        | None => []
                        end) ["countryiso3code"; "country"])
    (map (fun r => (countryiso3code r, country r)) (rows df)).

(** [df.unique()]: one row per distinct row. *)
Definition unique (df : DataFrame CountryRow) : DataFrame CountryRow :=
  mkFrame (schema df) (nodup CountryRow_eq_dec (rows df)).

(** The order of [sort("countryiso3code")]: nulls first, then strings in
    lexicographic order of their characters. *)
Definition code_leb (a b : option string) : bool :=
  match a, b with
  | None, _ => true
  | Some _, None => false
  | Some x, Some y => String.leb x y
  end.

(** Ascending order on the code column, nulls first. *)
Definition code_le (p q : CountryRow) : Prop :=
  code_leb (fst p) (fst q) = true.

Module CodeOrder <: TotalLeBool.

Definition t : Type := CountryRow.

Definition leb (p q : t) : bool := code_leb (fst p) (fst q).

Lemma leb_total : forall p q, leb p q = true \/ leb q p = true.
Proof.
  intros [[a|] x] [[b|] y]; unfold leb; simpl; auto.
  apply String.leb_total.
Qed.

End CodeOrder.

Module CodeSort := Sort CodeOrder.

(** [df.sort("countryiso3code")] *)
Definition sort (df : DataFrame CountryRow) : DataFrame CountryRow :=
  mkFrame (schema df) (CodeSort.sort (rows df)).

(** [df.filter(pl.col("countryiso3code") == country_code)]: a null code
    compares as null and the row is dropped. *)
Definition code_matches (country_code : string) (r : IndicatorRecord) : bool :=
  match countryiso3code r with
  | Some c => String.eqb c country_code
  | None => false
  end.

Definition filter_code (country_code : string) (df : DataFrame IndicatorRecord)
  : DataFrame IndicatorRecord :=
  mkFrame (schema df) (filter (code_matches country_code) (rows df)).

(** ** Part 1: resources *)

(** What is at [DATA_FILE] when a handler runs: nothing, or a file on
    which [pl.read_csv] returns a frame or raises. *)
Inductive file_state : Type :=
| Missing
| Present (read_csv : result (DataFrame IndicatorRecord)).

Section Resources.

(** The directory of [server.py], fixed by the deployment. *)
Variable module_dir : string.

Definition DATA_FILE : string := module_dir ++ "/data/world_bank_indicators.csv".

Definition _load_data (f : file_state) : result (DataFrame IndicatorRecord) :=
  match f with
  | Missing => Raise (mkExn FileNotFoundError ("Data file not found: " ++ DATA_FILE))
  | Present read_csv => read_csv
  end.

Definition get_schema (f : file_state) : result (text IndicatorRecord) :=
  (df <- _load_data f ;;
   let schema_info :=
     fold_left (fun d ct => dict_set (fst ct) (VStr (snd ct)) d) (schema df) [] in
   Ok (json_dumps (Some 2%nat) (VDict schema_info)))%result.

Definition get_countries (f : file_state) : result (text CountryRow) :=
  (df <- _load_data f ;;
   let countries := sort (unique (select_countries df)) in
   if (height countries =? 0)%nat
   then Ok (json_dumps None (VDict [("error", VStr "No countries found")]))
   else Ok (write_json countries))%result.

Definition get_country_indicators (country_code : string) (f : file_state)
  : result (text IndicatorRecord) :=
  (df <- _load_data f ;;
   let filtered := filter_code country_code df in
   if (height filtered =? 0)%nat
   then Ok (json_dumps None
              (VDict [("error", VStr ("Country not found: " ++ country_code))]))
   else Ok (write_json filtered))%result.

End Resources.

(** ** Part 2: tools *)

(** An HTTP response as far as the code looks at it: the status code, and
    the value [response.json()] decodes ([None] when the body is not
    JSON). *)
Record Response : Type := mkResponse {
  status_code : Z;
  body : option pyval
}.

(** [response.raise_for_status()]: anything outside 2xx raises. *)
Definition raise_for_status (r : Response) : result unit :=
  if ((200 <=? status_code r) && (status_code r <=? 299))%Z
  then Ok tt
  else Raise (mkExn HTTPStatusError
                ("HTTP status " ++ str_int (status_code r))).

(** [response.json()] *)
Definition response_json (r : Response) : result pyval :=
  match body r with
  | Some v => Ok v
  | None => Raise (mkExn JSONDecodeError "Expecting value: line 1 column 1 (char 0)")
  end.

Section Tools.

(** The network: [client.get(url, params=params)] answers with a response
    or raises (connection failure, timeout), and leaves the world in a new
    state. *)
Variable World : Type.
Variable client_get :
  string -> list (string * pyval) -> World -> result Response * World.

(** Computations that talk to the network and may raise. *)
Definition IO (A : Type) : Type := World -> result A * World.

Definition ret {A : Type} (a : A) : IO A := fun w => (Ok a, w).

Definition lift {A : Type} (r : result A) : IO A := fun w => (r, w).

Definition bind {A B : Type} (m : IO A) (k : A -> IO B) : IO B :=
  fun w =>
    match m w with
    | (Ok a, w') => k a w'
    | (Raise e, w') => (Raise e, w')
    end.

(** [try: x = m / except Exception as e: handler(e)], followed by [k x]
    outside the [try]. *)
Definition try_except {A B : Type} (m : IO A) (handler : exn -> IO B)
  (k : A -> IO B) : IO B :=
  fun w =>
    match m w with
    | (Ok a, w') => k a w'
    | (Raise e, w') => handler e w'
    end.

Declare Scope io_scope.
Delimit Scope io_scope with io.
Notation "x <- m ;; k" := (bind m (fun x => k))
  (at level 61, m at next level, right associativity) : io_scope.

Definition _fetch_rest_countries (country_code : string) : IO pyval :=
  (let url := "https://restcountries.com/v3.1/alpha/" ++ country_code in
   response <- client_get url [] ;;
   _ <- lift (raise_for_status response) ;;
   data <- lift (response_json response) ;;
   lift (py_index data 0))%io.

(** The query parameters of the indicator request.  [if year:] tests the
    truth value of an [Optional[int]]. *)
Definition indicator_params (year : option Z) : list (string * pyval) :=
  let params := [("format", VStr "json"); ("per_page", VInt 100)] in
  match year with
  | Some y =>
      if truthy (VInt y) then dict_set "date" (VStr (str_int y)) params
      else params
  | None => params
  end.

Definition indicator_url (country_code indicator : string) : string :=
  "https://api.worldbank.org/v2/country/" ++ country_code
    ++ "/indicator/" ++ indicator.

Definition _fetch_world_bank_indicator
  (country_code indicator : string) (year : option Z) : IO pyval :=
  (let url := indicator_url country_code indicator in
   let params := indicator_params year in
   response <- client_get url params ;;
   _ <- lift (raise_for_status response) ;;
   data <- lift (response_json response) ;;
   n <- lift (py_len data) ;;
   if (n <? 2)%nat then ret (VList [])
   else
     data1 <- lift (py_index data 1) ;;
     if negb (truthy data1) then ret (VList []) else ret data1)%io.

Definition country_info (data : pyval) : result pyval :=
  (name0 <- py_get data "name" (VDict []) ;;
   name <- py_get name0 "common" VNone ;;
   capital0 <- py_get data "capital" (VList [VNone]) ;;
   capital <- py_index capital0 0 ;;
   region <- py_get data "region" VNone ;;
   subregion <- py_get data "subregion" VNone ;;
   languages0 <- py_get data "languages" (VDict []) ;;
   languages <- py_values languages0 ;;
   currencies0 <- py_get data "currencies" (VDict []) ;;
   currencies <- py_keys currencies0 ;;
   population <- py_get data "population" VNone ;;
   flag <- py_get data "flag" VNone ;;
   Ok (VDict [("name", name);
              ("capital", capital);
              ("region", region);
              ("subregion", subregion);
              ("languages", languages);
              ("currencies", currencies);
              ("population", population);
              ("flag", flag)]))%result.

Definition get_country_info (country_code : string) : IO pyval :=
  try_except (_fetch_rest_countries country_code)
    (fun e =>
       if is_HTTPStatusError e
       then ret (VDict [("error", VStr ("Country not found: " ++ country_code))])
       else ret (VDict [("error", VStr (str_exn e))]))
    (fun data => lift (country_info data)).

Definition no_data_record (country_code indicator : string) (year : Z) : pyval :=
  VDict [("country", VStr country_code);
         ("indicator", VStr indicator);
         ("year", VInt year);
         ("value", VNone);
         ("error", VStr "No data available")].

Definition indicator_record (country_code indicator : string) (year : Z)
  (entry : pyval) : result pyval :=
  (country0 <- py_get entry "country" (VDict []) ;;
   country_name <- py_get country0 "value" VNone ;;
   indicator0 <- py_get entry "indicator" (VDict []) ;;
   indicator_name <- py_get indicator0 "value" VNone ;;
   value <- py_get entry "value" VNone ;;
   Ok (VDict [("country", VStr country_code);
              ("country_name", country_name);
              ("indicator", VStr indicator);
              ("indicator_name", indicator_name);
              ("year", VInt year);
              ("value", value)]))%result.

Definition get_live_indicator (country_code indicator : string) (year : Z)
  : IO pyval :=
  try_except (_fetch_world_bank_indicator country_code indicator (Some year))
    (fun e =>
       if is_HTTPStatusError e
       then ret (VDict [("error",
                         VStr ("Invalid request for " ++ country_code
                                 ++ " / " ++ indicator))])
       else ret (VDict [("error", VStr (str_exn e))]))
    (fun data =>
       if negb (truthy data)
       then ret (no_data_record country_code indicator year)
       else
         (entry <- lift (py_index data 0) ;;
          lift (indicator_record country_code indicator year entry))%io).

(** The record [compare_countries] appends when the call for [code]
    raised [e]. *)
Definition error_record (code indicator : string) (year : Z) (e : exn) : pyval :=
  VDict [("country", VStr code);
         ("indicator", VStr indicator);
         ("year", VInt year);
         ("value", VNone);
         ("error", VStr (str_exn e))].

(** One iteration of the loop body: the value appended to [results]. *)
Definition compare_step (indicator : string) (year : Z) (code : string)
  (w : World) : pyval * World :=
  match get_live_indicator code indicator year w with
  | (Ok result, w') => (result, w')
  | (Raise e, w') => (error_record code indicator year e, w')
  end.

(** [for code in country_codes: ...], with [results] as accumulator. *)
Fixpoint compare_loop (country_codes : list string) (indicator : string)
  (year : Z) (results : list pyval) (w : World) : list pyval * World :=
  match country_codes with
  | [] => (results, w)
  | code :: rest =>
      let (item, w') := compare_step indicator year code w in
      compare_loop rest indicator year (results ++ [item]) w'
  end.

Definition compare_countries (country_codes : list string) (indicator : string)
  (year : Z) (w : World) : list pyval * World :=
  compare_loop country_codes indicator year [] w.

End Tools.

Arguments ret {World A} a w.
Arguments lift {World A} r w.
Arguments bind {World A B} m k w.
Arguments try_except {World A B} m handler k w.
Arguments _fetch_rest_countries {World} client_get country_code w.
Arguments _fetch_world_bank_indicator {World} client_get
  country_code indicator year w.
Arguments get_country_info {World} client_get country_code w.
Arguments get_live_indicator {World} client_get country_code indicator year w.
Arguments compare_step {World} client_get indicator year code w.
Arguments compare_loop {World} client_get country_codes indicator year results w.
Arguments compare_countries {World} client_get country_codes indicator year w.

(** ** Example inputs

    A small data set in the shape of the CSV file. *)
Definition sample_schema : list (string * string) :=
  [("countryiso3code", "String"); ("country", "String");
   ("indicator", "String"); ("date", "Int64"); ("value", "Float64")].

Definition usa_gdp : IndicatorRecord :=
  mkRecord (Some "USA") (Some "United States")
    [("indicator", VStr "NY.GDP.MKTP.CD"); ("date", VInt 2022);
     ("value", VInt 25462700000000)].

Definition usa_pop : IndicatorRecord :=
  mkRecord (Some "USA") (Some "United States")
    [("indicator", VStr "SP.POP.TOTL"); ("date", VInt 2022);
     ("value", VInt 333287557)].

Definition bra_pop : IndicatorRecord :=
  mkRecord (Some "BRA") (Some "Brazil")
    [("indicator", VStr "SP.POP.TOTL"); ("date", VInt 2022);
     ("value", VInt 215313498)].

Definition sample_frame : DataFrame IndicatorRecord :=
  mkFrame sample_schema [usa_gdp; bra_pop; usa_pop].

Definition sample_file : file_state := Present (Ok sample_frame).

(** A stubbed network: each request is answered from its URL alone and
    appended to the log of requests made so far. *)
Definition RequestLog : Type := list (string * list (string * pyval)).

Definition page_info : pyval :=
  VDict [("page", VInt 1); ("pages", VInt 1); ("per_page", VInt 100);
         ("total", VInt 1)].

Definition usa_entry : pyval :=
  VDict [("indicator", VDict [("id", VStr "SP.POP.TOTL");
                              ("value", VStr "Population, total")]);
         ("country", VDict [("id", VStr "US"); ("value", VStr "United States")]);
         ("countryiso3code", VStr "USA");
         ("date", VStr "2022");
         ("value", VInt 333287557)].

Definition antarctica : pyval :=
  VDict [("name", VDict [("common", VStr "Antarctica")]);
         ("capital", VList []);
         ("region", VStr "Antarctic");
         ("population", VInt 1000)].

Definition stub_answer (url : string) : result Response :=
  if String.eqb url (indicator_url "USA" "SP.POP.TOTL")
  then Ok (mkResponse 200 (Some (VList [page_info; VList [usa_entry]])))
  else if String.eqb url (indicator_url "BRA" "SP.POP.TOTL")
  then Ok (mkResponse 200 (Some (VList [page_info])))
  else if String.eqb url (indicator_url "MIS" "SP.POP.TOTL")
  then Ok (mkResponse 200 (Some (VList [page_info; VList [VInt 5]])))
  else if String.eqb url "https://restcountries.com/v3.1/alpha/ATA"
  then Ok (mkResponse 200 (Some (VList [antarctica])))
  else Ok (mkResponse 404 None).

Definition stub_get (url : string) (params : list (string * pyval))
  (log : RequestLog) : result Response * RequestLog :=
  (stub_answer url, (log ++ [(url, params)])%list).


(** A network that gives the same answer to every request and counts
    the requests, and one that answers like [stub_answer] and keeps no
    state. *)
Definition canned_get (answer : result Response) (url : string)
  (params : list (string * pyval)) (n : nat) : result Response * nat :=
  (answer, S n).

Definition pure_get (url : string) (params : list (string * pyval)) (w : unit)
  : result Response * unit :=
  (stub_answer url, w).

Definition brazil : pyval :=
  VDict [("name", VDict [("common", VStr "Brazil");
                         ("official", VStr "Federative Republic of Brazil")]);
         ("capital", VList [VStr "Brasilia"]);
         ("region", VStr "Americas");
         ("subregion", VStr "South America");
         ("languages", VDict [("por", VStr "Portuguese")]);
         ("currencies", VDict [("BRL", VDict [("name", VStr "Brazilian real")])]);
         ("population", VInt 212559409)].

Definition empty_file : file_state := Present (Ok (mkFrame sample_schema [])).

Definition unreadable_file : file_state :=
  Present (Raise (mkExn ComputeError "could not parse the file")).

(** * Properties *)

Local Open Scope list_scope.

(** ** The sort order *)

Lemma string_compare_spec (a b : string) :
  CompSpec eq String_as_OT.lt a b (String.compare a b).
Proof. exact (String_as_OT.compare_spec a b). Qed.

Lemma string_leb_trans (a b c : string) :
  String.leb a b = true -> String.leb b c = true -> String.leb a c = true.
Proof.
  unfold String.leb.
  destruct (string_compare_spec a b) as [Hab|Hab|Hab]; try discriminate;
    destruct (string_compare_spec b c) as [Hbc|Hbc|Hbc]; try discriminate;
    destruct (string_compare_spec a c) as [Hac|Hac|Hac]; trivial;
    intros _ _; exfalso; subst;
    apply (StrictOrder_Irreflexive (R := String_as_OT.lt) c);
    try assumption; etransitivity; eauto; etransitivity; eauto.
Qed.

Lemma code_leb_trans (a b c : option string) :
  code_leb a b = true -> code_leb b c = true -> code_leb a c = true.
Proof.
  destruct a, b, c; simpl; trivial; try discriminate.
  apply string_leb_trans.
Qed.

Lemma CodeSort_sorted (l : list CountryRow) :
  StronglySorted code_le (CodeSort.sort l).
Proof.
  assert (T : Transitive (fun p q => is_true (CodeOrder.leb p q))).
  { intros p q r. unfold is_true, CodeOrder.leb. apply code_leb_trans. }
  pose proof (CodeSort.StronglySorted_sort l T) as H.
  induction H; constructor; trivial.
Qed.

(** ** Resources *)

Lemma code_matches_iff (country_code : string) (r : IndicatorRecord) :
  code_matches country_code r = true <-> countryiso3code r = Some country_code.
Proof.
  unfold code_matches. destruct (countryiso3code r) as [c|].
  - rewrite String.eqb_eq. split; congruence.
  - split; discriminate.
Qed.

Lemma length_zero_nil {A : Type} (l : list A) :
  (List.length l =? 0)%nat = true <-> l = [].
Proof. destruct l; simpl; split; congruence. Qed.

Lemma filter_nil_iff {A : Type} (p : A -> bool) (l : list A) :
  filter p l = [] <-> forall x, In x l -> p x = false.
Proof.
  induction l as [|a l IH]; simpl.
  - split; [intros _ x []|trivial].
  - destruct (p a) eqn:E.
    + split; [discriminate|]. intros H. specialize (H a (or_introl eq_refl)). congruence.
    + rewrite IH. split.
      * intros H x [<-|Hx]; auto.
      * intros H x Hx. auto.
Qed.

Section ResourceProperties.

Variable module_dir : string.

(** C8: when the CSV file does not exist, the loader raises
    [FileNotFoundError], and each of the three resource handlers lets that
    same exception out instead of returning an error object. *)
Theorem missing_file_propagates (country_code : string) :
  _load_data module_dir Missing
    = Raise (mkExn FileNotFoundError
               ("Data file not found: " ++ DATA_FILE module_dir)) /\
  get_schema module_dir Missing = Raise (A := text IndicatorRecord)
    (mkExn FileNotFoundError ("Data file not found: " ++ DATA_FILE module_dir)) /\
  get_countries module_dir Missing = Raise (A := text CountryRow)
    (mkExn FileNotFoundError ("Data file not found: " ++ DATA_FILE module_dir)) /\
  get_country_indicators module_dir country_code Missing
    = Raise (mkExn FileNotFoundError
               ("Data file not found: " ++ DATA_FILE module_dir)).
Proof. repeat split. Qed.

(** C5: the country-indicator lookup returns exactly the rows of the data
    set whose [countryiso3code] is the input code, compared as strings:
    a row is returned iff it is in the data set with that very code, and
    when some row has the code the answer is the serialised frame. *)
Theorem get_country_indicators_exact
  (f : file_state) (df : DataFrame IndicatorRecord) (country_code : string) :
  _load_data module_dir f = Ok df ->
  (forall r,
      In r (returned_rows (get_country_indicators module_dir country_code f))
      <-> In r (rows df) /\ countryiso3code r = Some country_code) /\
  ((exists r, In r (rows df) /\ countryiso3code r = Some country_code) ->
   exists filtered,
     get_country_indicators module_dir country_code f = Ok (write_json filtered)).
Proof.
  intros Hload. unfold get_country_indicators. rewrite Hload. simpl.
  unfold height. simpl.
  destruct (List.length (filter (code_matches country_code) (rows df)) =? 0)%nat
    eqn:E.
  - apply length_zero_nil in E.
    assert (N : forall x, In x (rows df) -> code_matches country_code x = false)
      by (apply filter_nil_iff; exact E).
    split.
    + intros r. simpl. split; [intros []|].
      intros [Hin Hc]. apply code_matches_iff in Hc.
      rewrite (N r Hin) in Hc. discriminate.
    + intros [r [Hin Hc]]. apply code_matches_iff in Hc.
      rewrite (N r Hin) in Hc. discriminate.
  - split.
    + intros r. simpl. rewrite filter_In, code_matches_iff. tauto.
    + intros _. eexists. reflexivity.
Qed.

(** C6: for a code that no row of the data set carries, the lookup returns
    the object [{"error": "Country not found: <code>"}] and does not raise. *)
Theorem get_country_indicators_not_found
  (f : file_state) (df : DataFrame IndicatorRecord) (country_code : string) :
  _load_data module_dir f = Ok df ->
  (forall r, In r (rows df) -> countryiso3code r <> Some country_code) ->
  get_country_indicators module_dir country_code f
  = Ok (json_dumps None
          (VDict [("error", VStr ("Country not found: " ++ country_code))])).
Proof.
  intros Hload Hnone. unfold get_country_indicators. rewrite Hload. simpl.
  unfold height. simpl.
  replace (filter (code_matches country_code) (rows df)) with (@nil IndicatorRecord).
  - reflexivity.
  - symmetry. apply filter_nil_iff. intros r Hin.
    destruct (code_matches country_code r) eqn:E; trivial.
    apply code_matches_iff in E. elim (Hnone r Hin E).
Qed.

(** C7: on a non-empty data set the country list is the serialised frame
    of the distinct (code, name) pairs of the data set: no pair occurs
    twice, a pair is listed iff some row carries it, and the pairs are in
    ascending order of code. *)
Theorem get_countries_distinct_sorted
  (f : file_state) (df : DataFrame IndicatorRecord) :
  _load_data module_dir f = Ok df ->
  rows df <> [] ->
  exists countries,
    get_countries module_dir f = Ok (write_json countries) /\
    NoDup (rows countries) /\
    (forall p, In p (rows countries)
               <-> exists r, In r (rows df) /\ p = (countryiso3code r, country r)) /\
    StronglySorted code_le (rows countries).
Proof.
  intros Hload Hne. unfold get_countries. rewrite Hload. simpl.
  set (pairs := map (fun r => (countryiso3code r, country r)) (rows df)).
  set (countries := sort (unique (select_countries df))).
  assert (Hperm : Permutation (nodup CountryRow_eq_dec pairs) (rows countries))
    by apply CodeSort.Permuted_sort.
  assert (Hin : forall p, In p (rows countries) <-> In p pairs).
  { intros p. split; intros H.
    - apply (nodup_In CountryRow_eq_dec).
      apply (Permutation_in _ (Permutation_sym Hperm)). exact H.
    - apply (Permutation_in _ Hperm). apply nodup_In. exact H. }
  exists countries. repeat split.
  - destruct (height countries =? 0)%nat eqn:E; trivial.
    apply length_zero_nil in E. exfalso.
    destruct (rows df) as [|r0 rs] eqn:Er; [congruence|].
    assert (H0 : In (countryiso3code r0, country r0) (rows countries))
      by (apply Hin; unfold pairs; simpl; auto).
    rewrite E in H0. exact H0.
  - apply (Permutation_NoDup Hperm), NoDup_nodup.
  - intros H. apply Hin in H. unfold pairs in H. apply in_map_iff in H.
    destruct H as [r [Heq Hr]]. exists r. auto.
  - intros [r [Hr ->]]. apply Hin. unfold pairs.
    apply in_map_iff. exists r. auto.
  - apply CodeSort_sorted.
Qed.

End ResourceProperties.

(** Instances on the example data set. *)
Lemma get_country_indicators_exact_witness :
  _load_data "/srv" sample_file = Ok sample_frame /\
  ((forall r,
       In r (returned_rows (get_country_indicators "/srv" "USA" sample_file))
       <-> In r (rows sample_frame) /\ countryiso3code r = Some "USA") /\
   ((exists r, In r (rows sample_frame) /\ countryiso3code r = Some "USA") ->
    exists filtered,
      get_country_indicators "/srv" "USA" sample_file = Ok (write_json filtered))).
Proof.
  split; [reflexivity|].
  apply (get_country_indicators_exact "/srv" sample_file sample_frame "USA").
  reflexivity.
Defined.

Lemma get_country_indicators_not_found_witness :
  _load_data "/srv" sample_file = Ok sample_frame /\
  (forall r, In r (rows sample_frame) -> countryiso3code r <> Some "ZZZ") /\
  get_country_indicators "/srv" "ZZZ" sample_file
  = Ok (json_dumps None (VDict [("error", VStr "Country not found: ZZZ")])).
Proof.
  assert (H : forall r, In r (rows sample_frame) -> countryiso3code r <> Some "ZZZ").
  { simpl. intros r [<-|[<-|[<-|[]]]]; simpl; discriminate. }
  split; [reflexivity|]. split; [exact H|].
  apply (get_country_indicators_not_found "/srv" sample_file sample_frame "ZZZ");
    [reflexivity | exact H].
Defined.

Lemma get_countries_distinct_sorted_witness :
  _load_data "/srv" sample_file = Ok sample_frame /\
  rows sample_frame <> [] /\
  exists countries,
    get_countries "/srv" sample_file = Ok (write_json countries) /\
    NoDup (rows countries) /\
    (forall p, In p (rows countries)
               <-> exists r, In r (rows sample_frame)
                             /\ p = (countryiso3code r, country r)) /\
    StronglySorted code_le (rows countries).
Proof.
  split; [reflexivity|]. split; [discriminate|].
  apply (get_countries_distinct_sorted "/srv" sample_file sample_frame);
    [reflexivity | discriminate].
Defined.

(** The same data set, evaluated: the codes come out in order, one pair
    per country, and the comparison of codes is case-sensitive. *)
Example get_countries_sample :
  returned_rows (get_countries "/srv" sample_file)
  = [(Some "BRA", Some "Brazil"); (Some "USA", Some "United States")].
Proof. reflexivity. Qed.

Example get_country_indicators_lowercase :
  get_country_indicators "/srv" "usa" sample_file
  = Ok (json_dumps None (VDict [("error", VStr "Country not found: usa")])).
Proof. reflexivity. Qed.

(** ** Tools *)

Section ToolProperties.

Variable World : Type.
Variable client_get :
  string -> list (string * pyval) -> World -> result Response * World.

Lemma compare_loop_acc (codes : list string) (indicator : string) (year : Z)
  (acc : list pyval) (w : World) :
  compare_loop client_get codes indicator year acc w
  = ((acc ++ fst (compare_loop client_get codes indicator year [] w))%list,
     snd (compare_loop client_get codes indicator year [] w)).
Proof.
  revert acc w. induction codes as [|code rest IH]; intros acc w; simpl.
  - now rewrite app_nil_r.
  - destruct (compare_step client_get indicator year code w) as [item w1].
    rewrite (IH (acc ++ [item])), (IH [item]). simpl.
    now rewrite <- app_assoc.
Qed.

Lemma compare_countries_cons (code : string) (rest : list string)
  (indicator : string) (year : Z) (w : World) :
  compare_countries client_get (code :: rest) indicator year w
  = (fst (compare_step client_get indicator year code w)
       :: fst (compare_countries client_get rest indicator year
                 (snd (compare_step client_get indicator year code w))),
     snd (compare_countries client_get rest indicator year
            (snd (compare_step client_get indicator year code w)))).
Proof.
  unfold compare_countries. simpl.
  destruct (compare_step client_get indicator year code w) as [item w1]. simpl.
  now rewrite compare_loop_acc.
Qed.

Lemma compare_countries_app (pre post : list string)
  (indicator : string) (year : Z) (w : World) :
  compare_countries client_get (pre ++ post) indicator year w
  = ((fst (compare_countries client_get pre indicator year w)
        ++ fst (compare_countries client_get post indicator year
                  (snd (compare_countries client_get pre indicator year w))))%list,
     snd (compare_countries client_get post indicator year
            (snd (compare_countries client_get pre indicator year w)))).
Proof.
  revert w. induction pre as [|code pre IH]; intros w.
  - simpl. now destruct (compare_countries client_get post indicator year w).
  - simpl app. rewrite !compare_countries_cons, IH. reflexivity.
Qed.

(** C1: the list [compare_countries] returns has one element per input
    code, empty list included, and its element at position [i] is what the
    loop body produces for the code at position [i], run in the world the
    first [i] codes left behind: nothing is dropped, merged or reordered. *)
Theorem compare_countries_length_order
  (codes : list string) (indicator : string) (year : Z) (w : World) :
  List.length (fst (compare_countries client_get codes indicator year w))
  = List.length codes /\
  forall i code,
    nth_error codes i = Some code ->
    nth_error (fst (compare_countries client_get codes indicator year w)) i
    = Some (fst (compare_step client_get indicator year code
                   (snd (compare_countries client_get (firstn i codes)
                           indicator year w)))).
Proof.
  split.
  - revert w. induction codes as [|c rest IH]; intros w.
    + reflexivity.
    + rewrite compare_countries_cons. simpl. now rewrite IH.
  - revert w. induction codes as [|c rest IH]; intros w i code Hi.
    + destruct i; discriminate.
    + rewrite compare_countries_cons. destruct i as [|i]; simpl in Hi |- *.
      * now inversion Hi.
      * rewrite compare_countries_cons. simpl. now apply IH.
Qed.

(** C2: when the call for one code raises, the list holds the error
    record built from that code, the indicator, the year and the message
    at that position; the codes before it keep the results they have
    without it, and the loop goes on with the codes after it. *)
Theorem compare_countries_isolates_failure
  (pre post : list string) (code indicator : string) (year : Z)
  (w w1 : World) (e : exn) :
  get_live_indicator client_get code indicator year
    (snd (compare_countries client_get pre indicator year w)) = (Raise e, w1) ->
  compare_countries client_get (pre ++ code :: post) indicator year w
  = (fst (compare_countries client_get pre indicator year w)
       ++ VDict [("country", VStr code);
                 ("indicator", VStr indicator);
                 ("year", VInt year);
                 ("value", VNone);
                 ("error", VStr (str_exn e))]
       :: fst (compare_countries client_get post indicator year w1),
     snd (compare_countries client_get post indicator year w1)).
Proof.
  intros Hraise.
  rewrite compare_countries_app, compare_countries_cons.
  unfold compare_step. rewrite Hraise. reflexivity.
Qed.

(** The record of a data entry has exactly six keys, whatever the entry
    holds. *)
Lemma indicator_record_shape
  (code indicator : string) (year : Z) (entry r : pyval) :
  indicator_record code indicator year entry = Ok r ->
  exists country_name indicator_name value,
    r = VDict [("country", VStr code);
               ("country_name", country_name);
               ("indicator", VStr indicator);
               ("indicator_name", indicator_name);
               ("year", VInt year);
               ("value", value)].
Proof.
  unfold indicator_record, rbind.
  destruct (py_get entry "country" (VDict [])) as [c0|]; [|discriminate].
  destruct (py_get c0 "value" VNone) as [cn|]; [|discriminate].
  destruct (py_get entry "indicator" (VDict [])) as [i0|]; [|discriminate].
  destruct (py_get i0 "value" VNone) as [iname|]; [|discriminate].
  destruct (py_get entry "value" VNone) as [v|]; [|discriminate].
  intros H. inversion H. eauto.
Qed.

(** An entry that is an object returns a record as soon as its "country"
    and "indicator" members, when present, are objects too. *)
Lemma indicator_record_returns
  (code indicator : string) (year : Z) (e : list (string * pyval)) :
  (forall v, dict_lookup "country" e = Some v -> exists d, v = VDict d) ->
  (forall v, dict_lookup "indicator" e = Some v -> exists d, v = VDict d) ->
  exists r, indicator_record code indicator year (VDict e) = Ok r.
Proof.
  intros Hc Hi. unfold indicator_record, py_get at 1 3 5.
  destruct (dict_lookup "country" e) as [c|].
  - destruct (Hc c eq_refl) as [dc ->].
    destruct (dict_lookup "indicator" e) as [i|].
    + destruct (Hi i eq_refl) as [di ->]. simpl.
      destruct (dict_lookup "value" dc), (dict_lookup "value" di),
        (dict_lookup "value" e); simpl; eauto.
    + simpl. destruct (dict_lookup "value" dc), (dict_lookup "value" e);
        simpl; eauto.
  - destruct (dict_lookup "indicator" e) as [i|].
    + destruct (Hi i eq_refl) as [di ->]. simpl.
      destruct (dict_lookup "value" di), (dict_lookup "value" e); simpl; eauto.
    + simpl. destruct (dict_lookup "value" e); simpl; eauto.
Qed.

(** C4: when the request is answered with a 2xx response whose JSON array
    has fewer than two elements, or whose second element is null or empty,
    [get_live_indicator] returns the record that echoes the three inputs
    with a null value and the error "No data available"; it does not
    raise. *)
Theorem get_live_indicator_no_data
  (code indicator : string) (year : Z) (w w' : World)
  (response : Response) (l : list pyval) :
  client_get (indicator_url code indicator) (indicator_params (Some year)) w
  = (Ok response, w') ->
  raise_for_status response = Ok tt ->
  body response = Some (VList l) ->
  (List.length l < 2 \/ exists v, nth_error l 1 = Some v /\ truthy v = false) ->
  get_live_indicator client_get code indicator year w
  = (Ok (VDict [("country", VStr code);
                ("indicator", VStr indicator);
                ("year", VInt year);
                ("value", VNone);
                ("error", VStr "No data available")]), w').
Proof.
  intros Hget Hstatus Hbody Hdata.
  unfold get_live_indicator, try_except, _fetch_world_bank_indicator, bind, lift.
  rewrite Hget, Hstatus. unfold response_json. rewrite Hbody. simpl py_len.
  cbv iota beta.
  destruct (List.length l <? 2)%nat eqn:E.
  - reflexivity.
  - apply Nat.ltb_ge in E. destruct Hdata as [Hlt|[v [Hv Hfalse]]]; [lia|].
    unfold py_index. rewrite Hv. cbv iota beta. rewrite Hfalse. reflexivity.
Qed.

(** C10: when the fetch yields data and [get_live_indicator] returns, the
    returned object is the six-key record: its "country" and "year" are
    the inputs themselves, whatever the upstream entry says, and it has no
    "error" key. *)
Theorem get_live_indicator_echoes_inputs
  (code indicator : string) (year : Z) (w w1 w' : World) (data r : pyval) :
  _fetch_world_bank_indicator client_get code indicator (Some year) w
  = (Ok data, w1) ->
  truthy data = true ->
  get_live_indicator client_get code indicator year w = (Ok r, w') ->
  field "country" r = Some (VStr code) /\
  field "year" r = Some (VInt year) /\
  field "error" r = None.
Proof.
  intros Hfetch Hdata. unfold get_live_indicator, try_except.
  rewrite Hfetch, Hdata. unfold bind, lift. simpl negb. cbv iota.
  destruct (py_index data 0) as [entry|]; [|discriminate].
  intros H. inversion H as [[Hr Hw]].
  destruct (indicator_record_shape _ _ _ _ _ Hr) as [cn [iname [v ->]]].
  repeat split.
Qed.

End ToolProperties.

(** ** The tools on the stubbed network *)

Lemma compare_countries_length_order_witness :
  List.length (fst (compare_countries stub_get ["USA"; "MIS"; "BRA"; "ZZZ"]
                      "SP.POP.TOTL" 2022 [])) = 4%nat /\
  forall i code,
    nth_error ["USA"; "MIS"; "BRA"; "ZZZ"] i = Some code ->
    nth_error (fst (compare_countries stub_get ["USA"; "MIS"; "BRA"; "ZZZ"]
                      "SP.POP.TOTL" 2022 [])) i
    = Some (fst (compare_step stub_get "SP.POP.TOTL" 2022 code
                   (snd (compare_countries stub_get
                           (firstn i ["USA"; "MIS"; "BRA"; "ZZZ"])
                           "SP.POP.TOTL" 2022 [])))).
Proof.
  exact (compare_countries_length_order RequestLog stub_get
           ["USA"; "MIS"; "BRA"; "ZZZ"] "SP.POP.TOTL" 2022 []).
Defined.

Lemma compare_countries_isolates_failure_witness :
  get_live_indicator stub_get "MIS" "SP.POP.TOTL" 2022
    (snd (compare_countries stub_get ["USA"] "SP.POP.TOTL" 2022 []))
  = (Raise (mkExn AttributeError "'int' object has no attribute 'get'"),
     [(indicator_url "USA" "SP.POP.TOTL", indicator_params (Some 2022%Z));
      (indicator_url "MIS" "SP.POP.TOTL", indicator_params (Some 2022%Z))]) /\
  fst (compare_countries stub_get (["USA"] ++ "MIS" :: ["BRA"]) "SP.POP.TOTL" 2022 [])
  = fst (compare_countries stub_get ["USA"] "SP.POP.TOTL" 2022 [])
      ++ VDict [("country", VStr "MIS");
                ("indicator", VStr "SP.POP.TOTL");
                ("year", VInt 2022);
                ("value", VNone);
                ("error", VStr "'int' object has no attribute 'get'")]
      :: [VDict [("country", VStr "BRA");
                 ("indicator", VStr "SP.POP.TOTL");
                 ("year", VInt 2022);
                 ("value", VNone);
                 ("error", VStr "No data available")]].
Proof.
  split; [reflexivity|].
  rewrite (compare_countries_isolates_failure RequestLog stub_get
             ["USA"] ["BRA"] "MIS" "SP.POP.TOTL" 2022 []
             [(indicator_url "USA" "SP.POP.TOTL", indicator_params (Some 2022%Z));
              (indicator_url "MIS" "SP.POP.TOTL", indicator_params (Some 2022%Z))]
             (mkExn AttributeError "'int' object has no attribute 'get'")
             eq_refl).
  reflexivity.
Defined.

Lemma get_live_indicator_no_data_witness :
  stub_get (indicator_url "BRA" "SP.POP.TOTL") (indicator_params (Some 2020%Z)) []
  = (Ok (mkResponse 200 (Some (VList [page_info]))),
     [(indicator_url "BRA" "SP.POP.TOTL", indicator_params (Some 2020%Z))]) /\
  raise_for_status (mkResponse 200 (Some (VList [page_info]))) = Ok tt /\
  (List.length [page_info] < 2)%nat /\
  get_live_indicator stub_get "BRA" "SP.POP.TOTL" 2020 []
  = (Ok (VDict [("country", VStr "BRA");
                ("indicator", VStr "SP.POP.TOTL");
                ("year", VInt 2020);
                ("value", VNone);
                ("error", VStr "No data available")]),
     [(indicator_url "BRA" "SP.POP.TOTL", indicator_params (Some 2020%Z))]).
Proof.
  split; [reflexivity|]. split; [reflexivity|]. split; [simpl; lia|].
  apply (get_live_indicator_no_data RequestLog stub_get "BRA" "SP.POP.TOTL" 2020
           [] _ (mkResponse 200 (Some (VList [page_info]))) [page_info]).
  - reflexivity.
  - reflexivity.
  - reflexivity.
  - left. simpl. lia.
Defined.

Lemma get_live_indicator_echoes_inputs_witness :
  _fetch_world_bank_indicator stub_get "USA" "SP.POP.TOTL" (Some 1999%Z) []
  = (Ok (VList [usa_entry]),
     [(indicator_url "USA" "SP.POP.TOTL", indicator_params (Some 1999%Z))]) /\
  truthy (VList [usa_entry]) = true /\
  (exists r w',
      get_live_indicator stub_get "USA" "SP.POP.TOTL" 1999 [] = (Ok r, w') /\
      field "country" r = Some (VStr "USA") /\
      field "year" r = Some (VInt 1999) /\
      field "error" r = None).
Proof.
  split; [reflexivity|]. split; [reflexivity|].
  eexists. eexists. split; [reflexivity|].
  eapply (get_live_indicator_echoes_inputs RequestLog stub_get
            "USA" "SP.POP.TOTL" 1999 []); reflexivity.
Defined.

(** The example of the specification: a non-2xx answer for one code is
    turned into an error object by [get_live_indicator] itself, and the
    other code's result stands. *)
Example compare_countries_unknown_code :
  fst (compare_countries stub_get ["USA"; "ZZZ"] "SP.POP.TOTL" 2022 [])
  = [VDict [("country", VStr "USA");
            ("country_name", VStr "United States");
            ("indicator", VStr "SP.POP.TOTL");
            ("indicator_name", VStr "Population, total");
            ("year", VInt 2022);
            ("value", VInt 333287557)];
     VDict [("error", VStr "Invalid request for ZZZ / SP.POP.TOTL")]].
Proof. reflexivity. Qed.

(** ** The query parameters *)

(** What the request carries for each [year]: the format and the page
    size always, and the date for a year other than zero. *)
Lemma indicator_params_lookup (year : option Z) :
  dict_lookup "format" (indicator_params year) = Some (VStr "json") /\
  dict_lookup "per_page" (indicator_params year) = Some (VInt 100) /\
  dict_lookup "date" (indicator_params year)
  = match year with
    | Some y => if (y =? 0)%Z then None else Some (VStr (str_int y))
    | None => None
    end.
Proof.
  destruct year as [y|]; simpl; auto.
  unfold indicator_params. simpl. destruct (y =? 0)%Z; simpl; auto.
Qed.

(** C9, at the year 0: the year is given, and the request goes out with
    the format and the page size only, without a date. *)
Theorem indicator_params_year_zero :
  indicator_params (Some 0%Z) = [("format", VStr "json"); ("per_page", VInt 100)] /\
  dict_lookup "date" (indicator_params (Some 0%Z)) = None /\
  snd (get_live_indicator stub_get "USA" "SP.POP.TOTL" 0 [])
  = [(indicator_url "USA" "SP.POP.TOTL",
      [("format", VStr "json"); ("per_page", VInt 100)])].
Proof. repeat split. Qed.

(** ** The capital of a country *)

(** With a non-empty capital list the field is its first element, and
    without a "capital" member it is null. *)
Lemma country_info_capital (d : list (string * pyval)) (r : pyval) :
  country_info (VDict d) = Ok r ->
  match dict_lookup "capital" d with
  | Some (VList (x :: _)) => field "capital" r = Some x
  | Some _ => True
  | None => field "capital" r = Some VNone
  end.
Proof.
  unfold country_info, rbind.
  destruct (py_get (VDict d) "name" (VDict [])) as [n0|]; [|discriminate].
  destruct (py_get n0 "common" VNone) as [n|]; [|discriminate].
  unfold py_get at 1.
  destruct (dict_lookup "capital" d) as [c|].
  - destruct (py_index c 0) as [c0|] eqn:Ec; [|discriminate].
    destruct (py_get (VDict d) "region" VNone); [|discriminate].
    destruct (py_get (VDict d) "subregion" VNone); [|discriminate].
    destruct (py_get (VDict d) "languages" (VDict [])) as [l0|]; [|discriminate].
    destruct (py_values l0); [|discriminate].
    destruct (py_get (VDict d) "currencies" (VDict [])) as [c1|]; [|discriminate].
    destruct (py_keys c1); [|discriminate].
    destruct (py_get (VDict d) "population" VNone); [|discriminate].
    destruct (py_get (VDict d) "flag" VNone); [|discriminate].
    intros H. inversion H. destruct c as [| | | | |[|x xs]|]; trivial.
    simpl in Ec. inversion Ec. reflexivity.
  - simpl py_index. cbv iota.
    destruct (py_get (VDict d) "region" VNone); [|discriminate].
    destruct (py_get (VDict d) "subregion" VNone); [|discriminate].
    destruct (py_get (VDict d) "languages" (VDict [])) as [l0|]; [|discriminate].
    destruct (py_values l0); [|discriminate].
    destruct (py_get (VDict d) "currencies" (VDict [])) as [c1|]; [|discriminate].
    destruct (py_keys c1); [|discriminate].
    destruct (py_get (VDict d) "population" VNone); [|discriminate].
    destruct (py_get (VDict d) "flag" VNone); [|discriminate].
    intros H. inversion H. reflexivity.
Qed.

(** With an empty capital list no object is returned at all. *)
Lemma country_info_empty_capital (d : list (string * pyval)) :
  dict_lookup "capital" d = Some (VList []) ->
  exists e, country_info (VDict d) = Raise e.
Proof.
  intros Hc. unfold country_info, rbind.
  destruct (py_get (VDict d) "name" (VDict [])) as [n0|]; [|eauto].
  destruct (py_get n0 "common" VNone) as [n|]; [|eauto].
  unfold py_get at 1. rewrite Hc. simpl. eauto.
Qed.

(** C3, at an answer whose capital list is empty: [get_country_info]
    raises [IndexError] instead of returning an object with a null
    capital. *)
Theorem get_country_info_empty_capital :
  body (mkResponse 200 (Some (VList [antarctica])))
  = Some (VList [VDict [("name", VDict [("common", VStr "Antarctica")]);
                        ("capital", VList []);
                        ("region", VStr "Antarctic");
                        ("population", VInt 1000)]]) /\
  get_country_info stub_get "ATA" []
  = (Raise (mkExn IndexError "list index out of range"),
     [("https://restcountries.com/v3.1/alpha/ATA", [])]).
Proof. split; reflexivity. Qed.

(** At the year 0 the undated request is answered with the newest entry,
    and the record presents it as the value for the year 0. *)
Example get_live_indicator_year_zero :
  fst (get_live_indicator stub_get "USA" "SP.POP.TOTL" 0 [])
  = Ok (VDict [("country", VStr "USA");
               ("country_name", VStr "United States");
               ("indicator", VStr "SP.POP.TOTL");
               ("indicator_name", VStr "Population, total");
               ("year", VInt 0);
               ("value", VInt 333287557)]).
Proof. reflexivity. Qed.

(** * Further properties of the handlers *)

(** ** Dictionaries *)

Lemma dict_set_fresh (k : string) (v : pyval) (d : list (string * pyval)) :
  ~ In k (map fst d) -> dict_set k v d = d ++ [(k, v)].
Proof.
  induction d as [|[k' v'] d IH]; simpl; intros Hk.
  - reflexivity.
  - destruct (String.eqb_spec k' k) as [->|Hne].
    + elim Hk. now left.
    + rewrite IH; [reflexivity|]. intros H. apply Hk. now right.
Qed.

Lemma schema_info_fold (s : list (string * string)) (acc : list (string * pyval)) :
  NoDup (map fst acc ++ map fst s) ->
  fold_left (fun d ct => dict_set (fst ct) (VStr (snd ct)) d) s acc
  = acc ++ map (fun ct => (fst ct, VStr (snd ct))) s.
Proof.
  revert acc. induction s as [|[c t] s IH]; intros acc Hnd; simpl.
  - now rewrite app_nil_r.
  - assert (Hc : ~ In c (map fst acc)).
    { intros Hin. apply NoDup_remove_2 in Hnd. apply Hnd.
      apply in_or_app. now left. }
    rewrite dict_set_fresh by exact Hc.
    rewrite IH.
    + now rewrite <- app_assoc.
    + rewrite map_app, <- app_assoc. exact Hnd.
Qed.

(** ** Resources *)

Lemma countries_rows_In (df : DataFrame IndicatorRecord) (p : CountryRow) :
  In p (rows (sort (unique (select_countries df))))
  <-> In p (map (fun r => (countryiso3code r, country r)) (rows df)).
Proof.
  simpl. split; intros H.
  - apply (nodup_In CountryRow_eq_dec).
    apply (Permutation_in _ (Permutation_sym (CodeSort.Permuted_sort _))).
    exact H.
  - apply (Permutation_in _ (CodeSort.Permuted_sort _)).
    apply nodup_In. exact H.
Qed.

Section MoreResourceProperties.

Variable module_dir : string.

(** The country list is the "No countries found" object exactly when the
    data set has no rows. *)
Theorem get_countries_empty_iff
  (f : file_state) (df : DataFrame IndicatorRecord) :
  _load_data module_dir f = Ok df ->
  (get_countries module_dir f
   = Ok (json_dumps None (VDict [("error", VStr "No countries found")]))
   <-> rows df = []).
Proof.
  intros Hload. unfold get_countries. rewrite Hload. simpl rbind.
  split.
  - destruct (height (sort (unique (select_countries df))) =? 0)%nat eqn:E;
      [|discriminate].
    intros _. apply length_zero_nil in E.
    destruct (rows df) as [|r rs] eqn:Er; [reflexivity|]. exfalso.
    assert (H : In (countryiso3code r, country r)
                  (rows (sort (unique (select_countries df))))).
    { apply countries_rows_In. rewrite Er. now left. }
    rewrite E in H. exact H.
  - intros Hnil. unfold height. simpl. rewrite Hnil. reflexivity.
Qed.

(** With distinct column names, the schema object lists every column of
    the data set once, in column order, each with the printed form of its
    data type, and is written with an indent of 2. *)
Theorem get_schema_columns
  (f : file_state) (df : DataFrame IndicatorRecord) :
  _load_data module_dir f = Ok df ->
  NoDup (map fst (schema df)) ->
  get_schema module_dir f
  = Ok (json_dumps (Some 2%nat)
          (VDict (map (fun ct => (fst ct, VStr (snd ct))) (schema df)))).
Proof.
  intros Hload Hnd. unfold get_schema. rewrite Hload. simpl rbind.
  now rewrite schema_info_fold.
Qed.

(** Whatever the loader raises, a missing file or a failure of
    [read_csv], each of the three resources raises the same exception. *)
Theorem load_failure_propagates (f : file_state) (e : exn) (country_code : string) :
  _load_data module_dir f = Raise e ->
  get_schema module_dir f = Raise e /\
  get_countries module_dir f = Raise e /\
  get_country_indicators module_dir country_code f = Raise e.
Proof.
  intros Hload. unfold get_schema, get_countries, get_country_indicators.
  rewrite Hload. repeat split.
Qed.

(** A frame returned by the country-indicator lookup always has a row,
    and it has the columns of the data set. *)
Theorem get_country_indicators_frame
  (f : file_state) (df filtered : DataFrame IndicatorRecord)
  (country_code : string) :
  _load_data module_dir f = Ok df ->
  get_country_indicators module_dir country_code f = Ok (write_json filtered) ->
  rows filtered <> [] /\ schema filtered = schema df.
Proof.
  intros Hload. unfold get_country_indicators. rewrite Hload. simpl rbind.
  destruct (height (filter_code country_code df) =? 0)%nat eqn:E;
    [discriminate|].
  intros H. inversion H; subst filtered. split; [|reflexivity].
  intros Hnil. unfold height in E. rewrite Hnil in E. discriminate.
Qed.

(** The lookups for two different codes never return a row in common. *)
Theorem get_country_indicators_disjoint
  (f : file_state) (code1 code2 : string) (r : IndicatorRecord) :
  code1 <> code2 ->
  In r (returned_rows (get_country_indicators module_dir code1 f)) ->
  ~ In r (returned_rows (get_country_indicators module_dir code2 f)).
Proof.
  intros Hne. unfold get_country_indicators.
  destruct (_load_data module_dir f) as [df|e]; simpl rbind; [|intros []].
  destruct (height (filter_code code1 df) =? 0)%nat; [intros []|].
  destruct (height (filter_code code2 df) =? 0)%nat; [intros _ []|].
  simpl. rewrite !filter_In, !code_matches_iff.
  intros [_ H1] [_ H2]. congruence.
Qed.

End MoreResourceProperties.

(** ** The country tool *)

Section CountryInfoProperties.

Variable World : Type.
Variable client_get :
  string -> list (string * pyval) -> World -> result Response * World.

(** The fetch is one request followed by pure steps on its response. *)
Lemma fetch_rest_countries_response (country_code : string) (w : World) :
  _fetch_rest_countries client_get country_code w
  = match client_get ("https://restcountries.com/v3.1/alpha/" ++ country_code)%string
            [] w with
    | (Ok response, w') =>
        (rbind (raise_for_status response) (fun _ =>
         rbind (response_json response) (fun data => py_index data 0)), w')
    | (Raise e, w') => (Raise e, w')
    end.
Proof.
  unfold _fetch_rest_countries, bind, lift.
  destruct (client_get _ [] w) as [[response|e] w']; [|reflexivity].
  destruct (raise_for_status response); [|reflexivity]. simpl.
  destruct (response_json response); reflexivity.
Qed.

Lemma raise_for_status_error (response : Response) :
  (status_code response < 200 \/ 299 < status_code response)%Z ->
  exists e, raise_for_status response = Raise e /\ is_HTTPStatusError e = true.
Proof.
  intros H. unfold raise_for_status.
  replace ((200 <=? status_code response) && (status_code response <=? 299))%Z
    with false.
  - eexists. split; reflexivity.
  - symmetry. apply andb_false_iff. rewrite Z.leb_gt, Z.leb_gt. lia.
Qed.

Lemma raise_for_status_ok (response : Response) :
  (200 <= status_code response <= 299)%Z ->
  raise_for_status response = Ok tt.
Proof.
  intros [H1 H2]. unfold raise_for_status.
  apply Z.leb_le in H1, H2. now rewrite H1, H2.
Qed.

(** One call of [get_country_info] changes the world by exactly one
    request, to the country's URL and without parameters, whatever the
    outcome. *)
Theorem get_country_info_single_request (country_code : string) (w : World) :
  snd (get_country_info client_get country_code w)
  = snd (client_get ("https://restcountries.com/v3.1/alpha/" ++ country_code)%string
           [] w).
Proof.
  unfold get_country_info, try_except.
  rewrite fetch_rest_countries_response.
  destruct (client_get _ [] w) as [[response|e] w'].
  - destruct (rbind _ _) as [data|e]; [reflexivity|].
    destruct (is_HTTPStatusError e); reflexivity.
  - destruct (is_HTTPStatusError e); reflexivity.
Qed.

(** A response outside 2xx is answered with the "Country not found"
    object for the input code. *)
Theorem get_country_info_http_error
  (country_code : string) (w w' : World) (response : Response) :
  client_get ("https://restcountries.com/v3.1/alpha/" ++ country_code)%string [] w
  = (Ok response, w') ->
  (status_code response < 200 \/ 299 < status_code response)%Z ->
  get_country_info client_get country_code w
  = (Ok (VDict [("error", VStr ("Country not found: " ++ country_code))]), w').
Proof.
  intros Hget Hstatus. unfold get_country_info, try_except.
  rewrite fetch_rest_countries_response, Hget.
  destruct (raise_for_status_error response Hstatus) as [e [-> He]].
  simpl. now rewrite He.
Qed.

(** A request that fails with anything but an HTTP status error is
    answered with an object holding the exception's message. *)
Theorem get_country_info_request_failure
  (country_code : string) (w w' : World) (e : exn) :
  client_get ("https://restcountries.com/v3.1/alpha/" ++ country_code)%string [] w
  = (Raise e, w') ->
  is_HTTPStatusError e = false ->
  get_country_info client_get country_code w
  = (Ok (VDict [("error", VStr (str_exn e))]), w').
Proof.
  intros Hget He. unfold get_country_info, try_except.
  rewrite fetch_rest_countries_response, Hget. now rewrite He.
Qed.

(** A 2xx response holding the empty list is answered with an error
    object, the message being that of the failed subscript. *)
Theorem get_country_info_no_match
  (country_code : string) (w w' : World) (response : Response) :
  client_get ("https://restcountries.com/v3.1/alpha/" ++ country_code)%string [] w
  = (Ok response, w') ->
  (200 <= status_code response <= 299)%Z ->
  body response = Some (VList []) ->
  get_country_info client_get country_code w
  = (Ok (VDict [("error", VStr "list index out of range")]), w').
Proof.
  intros Hget Hstatus Hbody. unfold get_country_info, try_except.
  rewrite fetch_rest_countries_response, Hget.
  rewrite (raise_for_status_ok _ Hstatus). unfold response_json.
  rewrite Hbody. reflexivity.
Qed.

(** Of the candidates a 2xx response lists, only the first is looked at:
    the result is that of reshaping the first candidate. *)
Theorem get_country_info_first_match
  (country_code : string) (w w' : World) (response : Response)
  (data : pyval) (rest : list pyval) :
  client_get ("https://restcountries.com/v3.1/alpha/" ++ country_code)%string [] w
  = (Ok response, w') ->
  (200 <= status_code response <= 299)%Z ->
  body response = Some (VList (data :: rest)) ->
  get_country_info client_get country_code w = (country_info data, w').
Proof.
  intros Hget Hstatus Hbody. unfold get_country_info, try_except.
  rewrite fetch_rest_countries_response, Hget.
  rewrite (raise_for_status_ok _ Hstatus). unfold response_json.
  rewrite Hbody. reflexivity.
Qed.

(** [get_country_info] raises only after a fetch that succeeded: a failed
    fetch always comes back as an error object. *)
Theorem get_country_info_raises_after_fetch
  (country_code : string) (w w' : World) (e : exn) :
  get_country_info client_get country_code w = (Raise e, w') ->
  exists data,
    _fetch_rest_countries client_get country_code w = (Ok data, w') /\
    country_info data = Raise e.
Proof.
  unfold get_country_info, try_except.
  destruct (_fetch_rest_countries client_get country_code w) as [[data|e0] w0].
  - unfold lift. intros H. inversion H. subst. eauto.
  - destruct (is_HTTPStatusError e0); discriminate.
Qed.

End CountryInfoProperties.

(** A returned country object has the eight keys in their fixed order;
    its languages and currencies are lists, the currencies a list of
    strings. *)
Theorem country_info_shape (data r : pyval) :
  country_info data = Ok r ->
  exists name capital region subregion languages codes population flag,
    r = VDict [("name", name);
               ("capital", capital);
               ("region", region);
               ("subregion", subregion);
               ("languages", VList languages);
               ("currencies", VList (map VStr codes));
               ("population", population);
               ("flag", flag)].
Proof.
  unfold country_info, rbind.
  destruct (py_get data "name" (VDict [])) as [n0|]; [|discriminate].
  destruct (py_get n0 "common" VNone) as [n|]; [|discriminate].
  destruct (py_get data "capital" (VList [VNone])) as [c0|]; [|discriminate].
  destruct (py_index c0 0) as [c|]; [|discriminate].
  destruct (py_get data "region" VNone) as [rg|]; [|discriminate].
  destruct (py_get data "subregion" VNone) as [sr|]; [|discriminate].
  destruct (py_get data "languages" (VDict [])) as [l0|]; [|discriminate].
  destruct (py_values l0) as [l|] eqn:El; [|discriminate].
  destruct (py_get data "currencies" (VDict [])) as [c1|]; [|discriminate].
  destruct (py_keys c1) as [k|] eqn:Ek; [|discriminate].
  destruct (py_get data "population" VNone) as [po|]; [|discriminate].
  destruct (py_get data "flag" VNone) as [fl|]; [|discriminate].
  intros H. inversion H.
  destruct l0; try discriminate. destruct c1; try discriminate.
  simpl in El, Ek. inversion El. inversion Ek.
  exists n, c, rg, sr, (map snd d), (map fst d0), po, fl.
  now rewrite map_map.
Qed.

(** An object with none of the eight source members is reshaped without
    raising: every scalar field is null and both lists are empty. *)
Theorem country_info_missing_fields (d : list (string * pyval)) :
  (forall k, In k ["name"; "capital"; "region"; "subregion"; "languages";
                   "currencies"; "population"; "flag"] ->
             dict_lookup k d = None) ->
  country_info (VDict d)
  = Ok (VDict [("name", VNone);
               ("capital", VNone);
               ("region", VNone);
               ("subregion", VNone);
               ("languages", VList []);
               ("currencies", VList []);
               ("population", VNone);
               ("flag", VNone)]).
Proof.
  intros H. unfold country_info, py_get.
  rewrite !H by (simpl; tauto). reflexivity.
Qed.

(** The languages are the values of the source mapping and the currencies
    its keys, both in the order of the source. *)
Theorem country_info_languages_currencies
  (d languages currencies : list (string * pyval)) (r : pyval) :
  dict_lookup "languages" d = Some (VDict languages) ->
  dict_lookup "currencies" d = Some (VDict currencies) ->
  country_info (VDict d) = Ok r ->
  field "languages" r = Some (VList (map snd languages)) /\
  field "currencies" r = Some (VList (map (fun kv => VStr (fst kv)) currencies)).
Proof.
  intros Hl Hc. unfold country_info, rbind.
  destruct (py_get (VDict d) "name" (VDict [])) as [n0|]; [|discriminate].
  destruct (py_get n0 "common" VNone) as [n|]; [|discriminate].
  destruct (py_get (VDict d) "capital" (VList [VNone])) as [c0|]; [|discriminate].
  destruct (py_index c0 0) as [c|]; [|discriminate].
  destruct (py_get (VDict d) "region" VNone) as [rg|]; [|discriminate].
  destruct (py_get (VDict d) "subregion" VNone) as [sr|]; [|discriminate].
  unfold py_get at 1 2. rewrite Hl, Hc. simpl py_values. simpl py_keys. cbv iota beta.
  destruct (py_get (VDict d) "population" VNone) as [po|]; [|discriminate].
  destruct (py_get (VDict d) "flag" VNone) as [fl|]; [|discriminate].
  intros H. inversion H. split; reflexivity.
Qed.

(** ** The indicator tool *)

(** For a year other than 0 the request carries three parameters: the
    format, the page size and the year in decimal as the date. *)
Theorem indicator_params_nonzero_year (y : Z) :
  y <> 0%Z ->
  indicator_params (Some y)
  = [("format", VStr "json"); ("per_page", VInt 100);
     ("date", VStr (str_int y))].
Proof.
  intros Hy. unfold indicator_params. simpl truthy.
  apply Z.eqb_neq in Hy. rewrite Hy. reflexivity.
Qed.

Section IndicatorProperties.

Variable World : Type.
Variable client_get :
  string -> list (string * pyval) -> World -> result Response * World.

Lemma fetch_world_bank_indicator_response
  (country_code indicator : string) (year : option Z) (w : World) :
  _fetch_world_bank_indicator client_get country_code indicator year w
  = match client_get (indicator_url country_code indicator)
            (indicator_params year) w with
    | (Ok response, w') =>
        (rbind (raise_for_status response) (fun _ =>
         rbind (response_json response) (fun data =>
         rbind (py_len data) (fun n =>
         if (n <? 2)%nat then Ok (VList [])
         else rbind (py_index data 1) (fun data1 =>
              if negb (truthy data1) then Ok (VList []) else Ok data1)))), w')
    | (Raise e, w') => (Raise e, w')
    end.
Proof.
  unfold _fetch_world_bank_indicator, bind, lift, ret.
  destruct (client_get _ _ w) as [[response|e] w']; [|reflexivity].
  destruct (raise_for_status response); [|reflexivity]. simpl.
  destruct (response_json response) as [data|]; [|reflexivity]. simpl.
  destruct (py_len data) as [n|]; [|reflexivity]. simpl.
  destruct (n <? 2)%nat; [reflexivity|].
  destruct (py_index data 1) as [data1|]; [|reflexivity]. simpl.
  destruct (truthy data1); reflexivity.
Qed.

(** What the fetch returns is the empty list or a value that tests true:
    the caller's [if not data] separates exactly these two. *)
Theorem fetch_world_bank_indicator_empty_or_data
  (country_code indicator : string) (year : option Z) (w w' : World)
  (data : pyval) :
  _fetch_world_bank_indicator client_get country_code indicator year w
  = (Ok data, w') ->
  data = VList [] \/ truthy data = true.
Proof.
  rewrite fetch_world_bank_indicator_response.
  destruct (client_get _ _ w) as [[response|e] w0]; [|discriminate].
  unfold rbind.
  destruct (raise_for_status response); [|discriminate].
  destruct (response_json response) as [d|]; [|discriminate].
  destruct (py_len d) as [n|]; [|discriminate].
  destruct (n <? 2)%nat.
  - intros H. inversion H. now left.
  - destruct (py_index d 1) as [d1|]; [|discriminate].
    destruct (truthy d1) eqn:E; simpl; intros H; inversion H; subst; auto.
Qed.

(** One call of [get_live_indicator] changes the world by exactly one
    request, to the indicator URL with the parameters of the year,
    whatever the outcome. *)
Theorem get_live_indicator_single_request
  (country_code indicator : string) (year : Z) (w : World) :
  snd (get_live_indicator client_get country_code indicator year w)
  = snd (client_get (indicator_url country_code indicator)
           (indicator_params (Some year)) w).
Proof.
  unfold get_live_indicator, try_except.
  rewrite fetch_world_bank_indicator_response.
  destruct (client_get _ _ w) as [[response|e] w'].
  - destruct (rbind _ _) as [data|e].
    + destruct (negb (truthy data)); [reflexivity|].
      unfold bind, lift. destruct (py_index data 0); reflexivity.
    + destruct (is_HTTPStatusError e); reflexivity.
  - destruct (is_HTTPStatusError e); reflexivity.
Qed.

(** A response outside 2xx is answered with the "Invalid request" object
    naming the code and the indicator. *)
Theorem get_live_indicator_http_error
  (country_code indicator : string) (year : Z) (w w' : World)
  (response : Response) :
  client_get (indicator_url country_code indicator)
    (indicator_params (Some year)) w = (Ok response, w') ->
  (status_code response < 200 \/ 299 < status_code response)%Z ->
  get_live_indicator client_get country_code indicator year w
  = (Ok (VDict [("error",
                 VStr ("Invalid request for " ++ country_code
                         ++ " / " ++ indicator))]), w').
Proof.
  intros Hget Hstatus. unfold get_live_indicator, try_except.
  rewrite fetch_world_bank_indicator_response, Hget.
  destruct (raise_for_status_error response Hstatus) as [e [-> He]].
  simpl. now rewrite He.
Qed.

(** A request that fails with anything but an HTTP status error is
    answered with an object holding the exception's message. *)
Theorem get_live_indicator_request_failure
  (country_code indicator : string) (year : Z) (w w' : World) (e : exn) :
  client_get (indicator_url country_code indicator)
    (indicator_params (Some year)) w = (Raise e, w') ->
  is_HTTPStatusError e = false ->
  get_live_indicator client_get country_code indicator year w
  = (Ok (VDict [("error", VStr (str_exn e))]), w').
Proof.
  intros Hget He. unfold get_live_indicator, try_except.
  rewrite fetch_world_bank_indicator_response, Hget. now rewrite He.
Qed.

(** Of a non-empty data array only the first entry is looked at: the
    result is the record of that entry, whatever follows it. *)
Theorem get_live_indicator_first_entry
  (country_code indicator : string) (year : Z) (w w' : World)
  (response : Response) (meta entry : pyval) (rest more : list pyval) :
  client_get (indicator_url country_code indicator)
    (indicator_params (Some year)) w = (Ok response, w') ->
  (200 <= status_code response <= 299)%Z ->
  body response = Some (VList (meta :: VList (entry :: rest) :: more)) ->
  get_live_indicator client_get country_code indicator year w
  = (indicator_record country_code indicator year entry, w').
Proof.
  intros Hget Hstatus Hbody. unfold get_live_indicator, try_except.
  rewrite fetch_world_bank_indicator_response, Hget.
  rewrite (raise_for_status_ok _ Hstatus). unfold response_json.
  rewrite Hbody. reflexivity.
Qed.

(** [get_live_indicator] raises only after a fetch that found data: a
    failed fetch and an empty one always come back as objects. *)
Theorem get_live_indicator_raises_after_data
  (country_code indicator : string) (year : Z) (w w' : World) (e : exn) :
  get_live_indicator client_get country_code indicator year w = (Raise e, w') ->
  exists data,
    _fetch_world_bank_indicator client_get country_code indicator (Some year) w
    = (Ok data, w') /\
    truthy data = true.
Proof.
  unfold get_live_indicator, try_except.
  destruct (_fetch_world_bank_indicator client_get country_code indicator
              (Some year) w) as [[data|e0] w0].
  - destruct (truthy data) eqn:E; simpl negb; cbv iota.
    + unfold bind, lift. destruct (py_index data 0) as [entry|e1].
      * intros H. inversion H. subst. eauto.
      * intros H. inversion H. subst. eauto.
    + discriminate.
  - destruct (is_HTTPStatusError e0); discriminate.
Qed.

(** Every object [get_live_indicator] returns has one of three shapes: a
    lone "error", the five-key record without data, or the six-key record
    of an entry. *)
Theorem get_live_indicator_shapes
  (country_code indicator : string) (year : Z) (w w' : World) (r : pyval) :
  get_live_indicator client_get country_code indicator year w = (Ok r, w') ->
  (exists message, r = VDict [("error", VStr message)]) \/
  r = VDict [("country", VStr country_code);
             ("indicator", VStr indicator);
             ("year", VInt year);
             ("value", VNone);
             ("error", VStr "No data available")] \/
  (exists country_name indicator_name value,
      r = VDict [("country", VStr country_code);
                 ("country_name", country_name);
                 ("indicator", VStr indicator);
                 ("indicator_name", indicator_name);
                 ("year", VInt year);
                 ("value", value)]).
Proof.
  unfold get_live_indicator, try_except.
  destruct (_fetch_world_bank_indicator client_get country_code indicator
              (Some year) w) as [[data|e0] w0].
  - destruct (negb (truthy data)).
    + intros H. inversion H. right. now left.
    + unfold bind, lift. destruct (py_index data 0) as [entry|]; [|discriminate].
      intros H. inversion H as [[Hr Hw]]. right. right.
      exact (indicator_record_shape _ _ _ _ _ Hr).
  - destruct (is_HTTPStatusError e0); intros H; inversion H; left; eauto.
Qed.

End IndicatorProperties.

(** The record of an entry takes the display names from the "value"
    members of the entry's "country" and "indicator" objects and hands the
    entry's own "value" on as it is; a member that is missing gives a
    null. *)
Theorem indicator_record_passthrough
  (country_code indicator : string) (year : Z)
  (entry country_obj indicator_obj : list (string * pyval)) :
  dict_lookup "country" entry = Some (VDict country_obj) ->
  dict_lookup "indicator" entry = Some (VDict indicator_obj) ->
  indicator_record country_code indicator year (VDict entry)
  = Ok (VDict [("country", VStr country_code);
               ("country_name",
                match dict_lookup "value" country_obj with
                | Some v => v
                | None => VNone
                end);
               ("indicator", VStr indicator);
               ("indicator_name",
                match dict_lookup "value" indicator_obj with
                | Some v => v
                | None => VNone
                end);
               ("year", VInt year);
               ("value",
                match dict_lookup "value" entry with
                | Some v => v
                | None => VNone
                end)]).
Proof.
  intros Hc Hi. unfold indicator_record, py_get. rewrite Hc, Hi.
  cbn [rbind].
  destruct (dict_lookup "value" country_obj),
    (dict_lookup "value" indicator_obj), (dict_lookup "value" entry);
    reflexivity.
Qed.

(** ** The comparison tool *)

Section CompareProperties.

Variable World : Type.
Variable client_get :
  string -> list (string * pyval) -> World -> result Response * World.

(** One iteration makes one request. *)
Lemma compare_step_world (indicator : string) (year : Z) (code : string)
  (w : World) :
  snd (compare_step client_get indicator year code w)
  = snd (client_get (indicator_url code indicator)
           (indicator_params (Some year)) w).
Proof.
  unfold compare_step, get_live_indicator, try_except.
  rewrite fetch_world_bank_indicator_response.
  destruct (client_get _ _ w) as [[response|e] w'].
  - destruct (rbind _ _) as [data|e].
    + destruct (negb (truthy data)); [reflexivity|].
      unfold bind, lift. destruct (py_index data 0) as [entry|]; [|reflexivity].
      destruct (indicator_record code indicator year entry); reflexivity.
    + destruct (is_HTTPStatusError e); reflexivity.
  - destruct (is_HTTPStatusError e); reflexivity.
Qed.

(** What one iteration appends is an object, and one that carries an
    "error" key or names the code, the indicator and the year it was
    asked for. *)
Lemma compare_step_item (indicator : string) (year : Z) (code : string)
  (w : World) :
  let r := fst (compare_step client_get indicator year code w) in
  (exists d, r = VDict d) /\
  (field "error" r <> None \/
   (field "country" r = Some (VStr code) /\
    field "indicator" r = Some (VStr indicator) /\
    field "year" r = Some (VInt year))).
Proof.
  cbv zeta. unfold compare_step, get_live_indicator, try_except, ret.
  destruct (_fetch_world_bank_indicator client_get code indicator (Some year) w)
    as [[data|e0] w0].
  - destruct (negb (truthy data)).
    + simpl. split; [eexists; reflexivity|]. left. discriminate.
    + unfold bind, lift. destruct (py_index data 0) as [entry|e1].
      * destruct (indicator_record code indicator year entry) as [r|e2] eqn:Er.
        -- destruct (indicator_record_shape _ _ _ _ _ Er) as [cn [iname [v ->]]].
           simpl. split; [eexists; reflexivity|]. right. repeat split.
        -- simpl. split; [eexists; reflexivity|]. left. discriminate.
      * simpl. split; [eexists; reflexivity|]. left. discriminate.
  - destruct (is_HTTPStatusError e0); simpl; (split; [eexists; reflexivity|]); left; discriminate.
Qed.

(** A batch can be cut anywhere: comparing a concatenation gives the
    results of the first part followed by those of the second part run
    in the world the first part left, and ends in the same world. *)
Theorem compare_countries_concat
  (pre post : list string) (indicator : string) (year : Z) (w : World) :
  fst (compare_countries client_get (pre ++ post) indicator year w)
  = fst (compare_countries client_get pre indicator year w)
      ++ fst (compare_countries client_get post indicator year
                (snd (compare_countries client_get pre indicator year w))) /\
  snd (compare_countries client_get (pre ++ post) indicator year w)
  = snd (compare_countries client_get post indicator year
           (snd (compare_countries client_get pre indicator year w))).
Proof.
  rewrite (compare_countries_app World client_get pre post indicator year w).
  split; reflexivity.
Qed.

(** Every element of the returned list is an object, and the element at
    the position of a code either carries an "error" key or names that
    code, the indicator and the year. *)
Theorem compare_countries_items
  (codes : list string) (indicator : string) (year : Z) (w : World)
  (i : nat) (code : string) (r : pyval) :
  nth_error codes i = Some code ->
  nth_error (fst (compare_countries client_get codes indicator year w)) i
  = Some r ->
  (exists d, r = VDict d) /\
  (field "error" r <> None \/
   (field "country" r = Some (VStr code) /\
    field "indicator" r = Some (VStr indicator) /\
    field "year" r = Some (VInt year))).
Proof.
  revert w i. induction codes as [|c rest IH]; intros w i Hi Hr.
  - destruct i; discriminate.
  - rewrite compare_countries_cons in Hr. destruct i as [|i]; simpl in Hi, Hr.
    + inversion Hi. inversion Hr. subst. apply compare_step_item.
    + eapply IH; eassumption.
Qed.

(** The requests go out one per code and in list order: the world after
    the batch is the world after those requests made one after the
    other. *)
Theorem compare_countries_requests
  (codes : list string) (indicator : string) (year : Z) (w : World) :
  snd (compare_countries client_get codes indicator year w)
  = fold_left
      (fun w' code =>
         snd (client_get (indicator_url code indicator)
                (indicator_params (Some year)) w'))
      codes w.
Proof.
  revert w. induction codes as [|c rest IH]; intros w.
  - reflexivity.
  - rewrite compare_countries_cons. simpl. rewrite IH.
    now rewrite compare_step_world.
Qed.

(** When requests leave the world as it is, each result depends on its
    own code only: the returned list is the list of codes mapped through
    one iteration in the initial world. *)
Theorem compare_countries_stateless
  (codes : list string) (indicator : string) (year : Z) (w : World) :
  (forall url params w0, snd (client_get url params w0) = w0) ->
  fst (compare_countries client_get codes indicator year w)
  = map (fun code => fst (compare_step client_get indicator year code w)) codes.
Proof.
  intros Hpure. induction codes as [|c rest IH].
  - reflexivity.
  - rewrite compare_countries_cons. simpl.
    rewrite compare_step_world, Hpure. now rewrite IH.
Qed.

End CompareProperties.

(** ** Instances of the further properties *)

Lemma get_countries_empty_iff_witness :
  _load_data "/srv" empty_file = Ok (mkFrame sample_schema []) /\
  (get_countries "/srv" empty_file
   = Ok (json_dumps None (VDict [("error", VStr "No countries found")]))
   <-> rows (mkFrame sample_schema (@nil IndicatorRecord)) = []).
Proof.
  split; [reflexivity|].
  apply (get_countries_empty_iff "/srv" empty_file). reflexivity.
Defined.

Lemma get_schema_columns_witness :
  _load_data "/srv" sample_file = Ok sample_frame /\
  NoDup (map fst (schema sample_frame)) /\
  get_schema "/srv" sample_file
  = Ok (json_dumps (Some 2%nat)
          (VDict [("countryiso3code", VStr "String"); ("country", VStr "String");
                  ("indicator", VStr "String"); ("date", VStr "Int64");
                  ("value", VStr "Float64")])).
Proof.
  assert (Hnd : NoDup (map fst (schema sample_frame))).
  { simpl. repeat constructor; simpl; intuition discriminate. }
  split; [reflexivity|]. split; [exact Hnd|].
  apply (get_schema_columns "/srv" sample_file sample_frame eq_refl Hnd).
Defined.

Lemma load_failure_propagates_witness :
  _load_data "/srv" unreadable_file
  = Raise (mkExn ComputeError "could not parse the file") /\
  get_schema "/srv" unreadable_file
  = Raise (mkExn ComputeError "could not parse the file") /\
  get_countries "/srv" unreadable_file
  = Raise (mkExn ComputeError "could not parse the file") /\
  get_country_indicators "/srv" "USA" unreadable_file
  = Raise (mkExn ComputeError "could not parse the file").
Proof.
  split; [reflexivity|].
  apply (load_failure_propagates "/srv" unreadable_file). reflexivity.
Defined.

Lemma get_country_indicators_frame_witness :
  _load_data "/srv" sample_file = Ok sample_frame /\
  get_country_indicators "/srv" "USA" sample_file
  = Ok (write_json (mkFrame sample_schema [usa_gdp; usa_pop])) /\
  rows (mkFrame sample_schema [usa_gdp; usa_pop]) <> [] /\
  schema (mkFrame sample_schema [usa_gdp; usa_pop]) = schema sample_frame.
Proof.
  split; [reflexivity|]. split; [reflexivity|].
  apply (get_country_indicators_frame "/srv" sample_file sample_frame
           (mkFrame sample_schema [usa_gdp; usa_pop]) "USA");
    reflexivity.
Defined.

Lemma get_country_indicators_disjoint_witness :
  "USA" <> "BRA" /\
  In usa_gdp (returned_rows (get_country_indicators "/srv" "USA" sample_file)) /\
  ~ In usa_gdp (returned_rows (get_country_indicators "/srv" "BRA" sample_file)).
Proof.
  assert (Hin : In usa_gdp
                  (returned_rows (get_country_indicators "/srv" "USA" sample_file)))
    by (simpl; left; reflexivity).
  split; [discriminate|]. split; [exact Hin|].
  apply (get_country_indicators_disjoint "/srv" sample_file "USA" "BRA" usa_gdp);
    [discriminate | exact Hin].
Defined.

Lemma get_country_info_http_error_witness :
  stub_get ("https://restcountries.com/v3.1/alpha/" ++ "ZZZ")%string [] []
  = (Ok (mkResponse 404 None), [("https://restcountries.com/v3.1/alpha/ZZZ", [])]) /\
  (status_code (mkResponse 404 None) < 200
   \/ 299 < status_code (mkResponse 404 None))%Z /\
  get_country_info stub_get "ZZZ" []
  = (Ok (VDict [("error", VStr "Country not found: ZZZ")]),
     [("https://restcountries.com/v3.1/alpha/ZZZ", [])]).
Proof.
  split; [reflexivity|]. split; [right; simpl; lia|].
  apply (get_country_info_http_error RequestLog stub_get "ZZZ" [] _
           (mkResponse 404 None)).
  - reflexivity.
  - right. simpl. lia.
Defined.

Lemma get_country_info_request_failure_witness :
  canned_get (Raise (mkExn RequestError "connection refused"))
    ("https://restcountries.com/v3.1/alpha/" ++ "BRA")%string [] 0%nat
  = (Raise (mkExn RequestError "connection refused"), 1%nat) /\
  is_HTTPStatusError (mkExn RequestError "connection refused") = false /\
  get_country_info (canned_get (Raise (mkExn RequestError "connection refused")))
    "BRA" 0%nat
  = (Ok (VDict [("error", VStr "connection refused")]), 1%nat).
Proof.
  split; [reflexivity|]. split; [reflexivity|].
  apply (get_country_info_request_failure nat
           (canned_get (Raise (mkExn RequestError "connection refused")))
           "BRA" 0%nat 1%nat (mkExn RequestError "connection refused"));
    reflexivity.
Defined.

Lemma get_country_info_no_match_witness :
  canned_get (Ok (mkResponse 200 (Some (VList []))))
    ("https://restcountries.com/v3.1/alpha/" ++ "BRA")%string [] 0%nat
  = (Ok (mkResponse 200 (Some (VList []))), 1%nat) /\
  (200 <= status_code (mkResponse 200 (Some (VList []))) <= 299)%Z /\
  get_country_info (canned_get (Ok (mkResponse 200 (Some (VList []))))) "BRA" 0%nat
  = (Ok (VDict [("error", VStr "list index out of range")]), 1%nat).
Proof.
  split; [reflexivity|]. split; [simpl; lia|].
  apply (get_country_info_no_match nat
           (canned_get (Ok (mkResponse 200 (Some (VList [])))))
           "BRA" 0%nat 1%nat (mkResponse 200 (Some (VList [])))).
  - reflexivity.
  - simpl. lia.
  - reflexivity.
Defined.

Lemma get_country_info_first_match_witness :
  canned_get (Ok (mkResponse 200 (Some (VList [brazil; antarctica]))))
    ("https://restcountries.com/v3.1/alpha/" ++ "BRA")%string [] 0%nat
  = (Ok (mkResponse 200 (Some (VList [brazil; antarctica]))), 1%nat) /\
  (200 <= status_code (mkResponse 200 (Some (VList [brazil; antarctica]))) <= 299)%Z /\
  get_country_info
    (canned_get (Ok (mkResponse 200 (Some (VList [brazil; antarctica])))))
    "BRA" 0%nat
  = (Ok (VDict [("name", VStr "Brazil");
                ("capital", VStr "Brasilia");
                ("region", VStr "Americas");
                ("subregion", VStr "South America");
                ("languages", VList [VStr "Portuguese"]);
                ("currencies", VList [VStr "BRL"]);
                ("population", VInt 212559409);
                ("flag", VNone)]), 1%nat).
Proof.
  split; [reflexivity|]. split; [simpl; lia|].
  rewrite (get_country_info_first_match nat
             (canned_get (Ok (mkResponse 200 (Some (VList [brazil; antarctica])))))
             "BRA" 0%nat 1%nat
             (mkResponse 200 (Some (VList [brazil; antarctica])))
             brazil [antarctica]).
  - reflexivity.
  - reflexivity.
  - simpl. lia.
  - reflexivity.
Defined.

Lemma get_country_info_raises_after_fetch_witness :
  get_country_info stub_get "ATA" []
  = (Raise (mkExn IndexError "list index out of range"),
     [("https://restcountries.com/v3.1/alpha/ATA", [])]) /\
  exists data,
    _fetch_rest_countries stub_get "ATA" []
    = (Ok data, [("https://restcountries.com/v3.1/alpha/ATA", [])]) /\
    country_info data = Raise (mkExn IndexError "list index out of range").
Proof.
  split; [reflexivity|].
  apply (get_country_info_raises_after_fetch RequestLog stub_get "ATA" []).
  reflexivity.
Defined.

Lemma country_info_shape_witness :
  country_info brazil
  = Ok (VDict [("name", VStr "Brazil");
               ("capital", VStr "Brasilia");
               ("region", VStr "Americas");
               ("subregion", VStr "South America");
               ("languages", VList [VStr "Portuguese"]);
               ("currencies", VList [VStr "BRL"]);
               ("population", VInt 212559409);
               ("flag", VNone)]) /\
  exists name capital region subregion languages codes population flag,
    VDict [("name", VStr "Brazil");
           ("capital", VStr "Brasilia");
           ("region", VStr "Americas");
           ("subregion", VStr "South America");
           ("languages", VList [VStr "Portuguese"]);
           ("currencies", VList [VStr "BRL"]);
           ("population", VInt 212559409);
           ("flag", VNone)]
    = VDict [("name", name);
             ("capital", capital);
             ("region", region);
             ("subregion", subregion);
             ("languages", VList languages);
             ("currencies", VList (map VStr codes));
             ("population", population);
             ("flag", flag)].
Proof.
  split; [reflexivity|].
  apply (country_info_shape brazil). reflexivity.
Defined.

Lemma country_info_missing_fields_witness :
  (forall k, In k ["name"; "capital"; "region"; "subregion"; "languages";
                   "currencies"; "population"; "flag"] ->
             dict_lookup k [("cca3", VStr "XXK")] = None) /\
  country_info (VDict [("cca3", VStr "XXK")])
  = Ok (VDict [("name", VNone);
               ("capital", VNone);
               ("region", VNone);
               ("subregion", VNone);
               ("languages", VList []);
               ("currencies", VList []);
               ("population", VNone);
               ("flag", VNone)]).
Proof.
  assert (H : forall k,
             In k ["name"; "capital"; "region"; "subregion"; "languages";
                   "currencies"; "population"; "flag"] ->
             dict_lookup k [("cca3", VStr "XXK")] = None).
  { intros k Hk. simpl in Hk.
    repeat (destruct Hk as [<-|Hk]; [reflexivity|]). destruct Hk. }
  split; [exact H|].
  apply (country_info_missing_fields [("cca3", VStr "XXK")] H).
Defined.

Lemma country_info_languages_currencies_witness :
  dict_lookup "languages"
    match brazil with VDict d => d | _ => [] end
  = Some (VDict [("por", VStr "Portuguese")]) /\
  dict_lookup "currencies"
    match brazil with VDict d => d | _ => [] end
  = Some (VDict [("BRL", VDict [("name", VStr "Brazilian real")])]) /\
  (exists r,
      country_info brazil = Ok r /\
      field "languages" r = Some (VList [VStr "Portuguese"]) /\
      field "currencies" r = Some (VList [VStr "BRL"])).
Proof.
  split; [reflexivity|]. split; [reflexivity|].
  eexists. split; [reflexivity|].
  eapply (country_info_languages_currencies
            match brazil with VDict d => d | _ => [] end
            [("por", VStr "Portuguese")]
            [("BRL", VDict [("name", VStr "Brazilian real")])]);
    reflexivity.
Defined.

Lemma indicator_params_nonzero_year_witness :
  2022%Z <> 0%Z /\
  indicator_params (Some 2022%Z)
  = [("format", VStr "json"); ("per_page", VInt 100); ("date", VStr "2022")].
Proof.
  split; [discriminate|].
  apply (indicator_params_nonzero_year 2022). discriminate.
Defined.

Lemma fetch_world_bank_indicator_empty_or_data_witness :
  _fetch_world_bank_indicator stub_get "USA" "SP.POP.TOTL" (Some 2022%Z) []
  = (Ok (VList [usa_entry]),
     [(indicator_url "USA" "SP.POP.TOTL", indicator_params (Some 2022%Z))]) /\
  (VList [usa_entry] = VList [] \/ truthy (VList [usa_entry]) = true).
Proof.
  split; [reflexivity|].
  apply (fetch_world_bank_indicator_empty_or_data RequestLog stub_get
           "USA" "SP.POP.TOTL" (Some 2022%Z) []
           [(indicator_url "USA" "SP.POP.TOTL", indicator_params (Some 2022%Z))]).
  reflexivity.
Defined.

Lemma get_live_indicator_http_error_witness :
  stub_get (indicator_url "ZZZ" "SP.POP.TOTL") (indicator_params (Some 2022%Z)) []
  = (Ok (mkResponse 404 None),
     [(indicator_url "ZZZ" "SP.POP.TOTL", indicator_params (Some 2022%Z))]) /\
  (status_code (mkResponse 404 None) < 200
   \/ 299 < status_code (mkResponse 404 None))%Z /\
  get_live_indicator stub_get "ZZZ" "SP.POP.TOTL" 2022 []
  = (Ok (VDict [("error", VStr "Invalid request for ZZZ / SP.POP.TOTL")]),
     [(indicator_url "ZZZ" "SP.POP.TOTL", indicator_params (Some 2022%Z))]).
Proof.
  split; [reflexivity|]. split; [right; simpl; lia|].
  apply (get_live_indicator_http_error RequestLog stub_get "ZZZ" "SP.POP.TOTL"
           2022 [] _ (mkResponse 404 None)).
  - reflexivity.
  - right. simpl. lia.
Defined.

Lemma get_live_indicator_request_failure_witness :
  canned_get (Raise (mkExn RequestError "timed out"))
    (indicator_url "USA" "SP.POP.TOTL") (indicator_params (Some 2022%Z)) 0%nat
  = (Raise (mkExn RequestError "timed out"), 1%nat) /\
  is_HTTPStatusError (mkExn RequestError "timed out") = false /\
  get_live_indicator (canned_get (Raise (mkExn RequestError "timed out")))
    "USA" "SP.POP.TOTL" 2022 0%nat
  = (Ok (VDict [("error", VStr "timed out")]), 1%nat).
Proof.
  split; [reflexivity|]. split; [reflexivity|].
  apply (get_live_indicator_request_failure nat
           (canned_get (Raise (mkExn RequestError "timed out")))
           "USA" "SP.POP.TOTL" 2022 0%nat 1%nat
           (mkExn RequestError "timed out"));
    reflexivity.
Defined.

Lemma get_live_indicator_first_entry_witness :
  canned_get
    (Ok (mkResponse 200 (Some (VList [page_info; VList [usa_entry; VInt 5]]))))
    (indicator_url "USA" "SP.POP.TOTL") (indicator_params (Some 2022%Z)) 0%nat
  = (Ok (mkResponse 200 (Some (VList [page_info; VList [usa_entry; VInt 5]]))),
     1%nat) /\
  (200 <= status_code
            (mkResponse 200 (Some (VList [page_info; VList [usa_entry; VInt 5]])))
   <= 299)%Z /\
  get_live_indicator
    (canned_get
       (Ok (mkResponse 200 (Some (VList [page_info; VList [usa_entry; VInt 5]])))))
    "USA" "SP.POP.TOTL" 2022 0%nat
  = (Ok (VDict [("country", VStr "USA");
                ("country_name", VStr "United States");
                ("indicator", VStr "SP.POP.TOTL");
                ("indicator_name", VStr "Population, total");
                ("year", VInt 2022);
                ("value", VInt 333287557)]), 1%nat).
Proof.
  split; [reflexivity|]. split; [simpl; lia|].
  rewrite (get_live_indicator_first_entry nat
             (canned_get
                (Ok (mkResponse 200
                       (Some (VList [page_info; VList [usa_entry; VInt 5]])))))
             "USA" "SP.POP.TOTL" 2022 0%nat 1%nat
             (mkResponse 200 (Some (VList [page_info; VList [usa_entry; VInt 5]])))
             page_info usa_entry [VInt 5] []).
  - reflexivity.
  - reflexivity.
  - simpl. lia.
  - reflexivity.
Defined.

Lemma get_live_indicator_raises_after_data_witness :
  get_live_indicator stub_get "MIS" "SP.POP.TOTL" 2022 []
  = (Raise (mkExn AttributeError "'int' object has no attribute 'get'"),
     [(indicator_url "MIS" "SP.POP.TOTL", indicator_params (Some 2022%Z))]) /\
  exists data,
    _fetch_world_bank_indicator stub_get "MIS" "SP.POP.TOTL" (Some 2022%Z) []
    = (Ok data,
       [(indicator_url "MIS" "SP.POP.TOTL", indicator_params (Some 2022%Z))]) /\
    truthy data = true.
Proof.
  split; [reflexivity|].
  apply (get_live_indicator_raises_after_data RequestLog stub_get
           "MIS" "SP.POP.TOTL" 2022 [] _
           (mkExn AttributeError "'int' object has no attribute 'get'")).
  reflexivity.
Defined.

Lemma get_live_indicator_shapes_witness :
  get_live_indicator stub_get "BRA" "SP.POP.TOTL" 2022 []
  = (Ok (no_data_record "BRA" "SP.POP.TOTL" 2022),
     [(indicator_url "BRA" "SP.POP.TOTL", indicator_params (Some 2022%Z))]) /\
  ((exists message,
       no_data_record "BRA" "SP.POP.TOTL" 2022 = VDict [("error", VStr message)]) \/
   no_data_record "BRA" "SP.POP.TOTL" 2022
   = VDict [("country", VStr "BRA");
            ("indicator", VStr "SP.POP.TOTL");
            ("year", VInt 2022);
            ("value", VNone);
            ("error", VStr "No data available")] \/
   (exists country_name indicator_name value,
       no_data_record "BRA" "SP.POP.TOTL" 2022
       = VDict [("country", VStr "BRA");
                ("country_name", country_name);
                ("indicator", VStr "SP.POP.TOTL");
                ("indicator_name", indicator_name);
                ("year", VInt 2022);
                ("value", value)])).
Proof.
  split; [reflexivity|].
  apply (get_live_indicator_shapes RequestLog stub_get "BRA" "SP.POP.TOTL" 2022
           []
           [(indicator_url "BRA" "SP.POP.TOTL", indicator_params (Some 2022%Z))]).
  reflexivity.
Defined.

Lemma indicator_record_passthrough_witness :
  dict_lookup "country" match usa_entry with VDict d => d | _ => [] end
  = Some (VDict [("id", VStr "US"); ("value", VStr "United States")]) /\
  dict_lookup "indicator" match usa_entry with VDict d => d | _ => [] end
  = Some (VDict [("id", VStr "SP.POP.TOTL"); ("value", VStr "Population, total")]) /\
  indicator_record "USA" "SP.POP.TOTL" 2022 usa_entry
  = Ok (VDict [("country", VStr "USA");
               ("country_name", VStr "United States");
               ("indicator", VStr "SP.POP.TOTL");
               ("indicator_name", VStr "Population, total");
               ("year", VInt 2022);
               ("value", VInt 333287557)]).
Proof.
  split; [reflexivity|]. split; [reflexivity|].
  apply (indicator_record_passthrough "USA" "SP.POP.TOTL" 2022
           match usa_entry with VDict d => d | _ => [] end
           [("id", VStr "US"); ("value", VStr "United States")]
           [("id", VStr "SP.POP.TOTL"); ("value", VStr "Population, total")]);
    reflexivity.
Defined.

Lemma compare_countries_items_witness :
  nth_error ["USA"; "ZZZ"] 0 = Some "USA" /\
  (exists r,
      nth_error (fst (compare_countries stub_get ["USA"; "ZZZ"] "SP.POP.TOTL"
                        2022 [])) 0 = Some r /\
      (exists d, r = VDict d) /\
      (field "error" r <> None \/
       (field "country" r = Some (VStr "USA") /\
        field "indicator" r = Some (VStr "SP.POP.TOTL") /\
        field "year" r = Some (VInt 2022)))).
Proof.
  split; [reflexivity|].
  eexists. split; [reflexivity|].
  eapply (compare_countries_items RequestLog stub_get ["USA"; "ZZZ"]
            "SP.POP.TOTL" 2022 [] 0 "USA"); reflexivity.
Defined.

Lemma compare_countries_stateless_witness :
  (forall url params w0, snd (pure_get url params w0) = w0) /\
  fst (compare_countries pure_get ["USA"; "MIS"; "ZZZ"] "SP.POP.TOTL" 2022 tt)
  = map (fun code => fst (compare_step pure_get "SP.POP.TOTL" 2022 code tt))
      ["USA"; "MIS"; "ZZZ"].
Proof.
  split; [reflexivity|].
  apply (compare_countries_stateless unit pure_get). reflexivity.
Defined.
